(** * Account resolvers of the news dashboard server

    A shallow embedding of [server/src/resolvers/user.ts]: the five
    mutations of [UserResolver] ([register], [login], [logout],
    [forgotPassword], [changePassword]) written over an explicit world that
    holds the collaborators the resolvers talk to: the user table (TypeORM),
    the Redis key-value store with per-key expiry (ioredis), the session of
    the current request, the response cookies, the mailer and the console.

    Asynchronous code is sequential here: every [await] is a bind of the
    monad [M], a rejected promise is the outcome [Throw], and [try]/[catch]
    is [try_catch]. *)

From Stdlib Require Import ZArith String Ascii List Lia.
From stdpp Require Import base gmap strings list pretty.

Open Scope Z_scope.

(** ** JavaScript values *)

(** The result of [parseInt]: an integer or [NaN].  Integers are kept exact;
    the rounding of doubles above 2^53 is not modelled. *)
Inductive JsNumber :=
| NaN
| Num (n : Z).

Definition JsNumber_eqb (a b : JsNumber) : bool :=
  match a, b with
  | Num x, Num y => x =? y
  | _, _ => false
  end.

(** [String(n)] for an integer, as ioredis applies it to a numeric value. *)
Definition Number_toString (n : Z) : string := pretty n.

(** [s.includes(c)] for a one-character needle. *)
Fixpoint includes (c : ascii) (s : string) : bool :=
  match s with
  | EmptyString => false
  | String d s' => if Ascii.eqb c d then true else includes c s'
  end.

Definition is_whitespace (c : ascii) : bool :=
  let n := nat_of_ascii c in
  ((n =? 32) || (n =? 9) || (n =? 10) || (n =? 11) || (n =? 12) || (n =? 13))%nat.

Fixpoint skip_whitespace (s : string) : string :=
  match s with
  | String c s' => if is_whitespace c then skip_whitespace s' else s
  | EmptyString => s
  end.

Definition digit_value (radix : Z) (c : ascii) : option Z :=
  let n := Z.of_nat (nat_of_ascii c) in
  let v :=
    if (48 <=? n) && (n <=? 57) then Some (n - 48)
    else if (97 <=? n) && (n <=? 122) then Some (n - 97 + 10)
    else if (65 <=? n) && (n <=? 90) then Some (n - 65 + 10)
    else None in
  match v with
  | Some d => if d <? radix then Some d else None
  | None => None
  end.

(** The longest prefix of digits of [s], read in [radix]; [acc] is the value
    read so far, [None] while no digit has been seen. *)
Fixpoint parse_digits (radix : Z) (s : string) (acc : option Z) : option Z :=
  match s with
  | EmptyString => acc
  | String c s' =>
      match digit_value radix c with
      | Some d => parse_digits radix s' (Some (radix * default 0 acc + d))
      | None => acc
      end
  end.

(** [parseInt(s)] without a radix argument: leading white space, a sign, a
    [0x] prefix, then as many digits as there are. *)
Definition parseInt (s : string) : JsNumber :=
  let s1 := skip_whitespace s in
  let '(sign, s2) :=
    match s1 with
    | String "-"%char r => (-1, r)
    | String "+"%char r => (1, r)
    | _ => (1, s1)
    end in
  let '(radix, s3) :=
    match s2 with
    | String "0"%char (String "x"%char r) => (16, r)
    | String "0"%char (String "X"%char r) => (16, r)
    | _ => (10, s2)
    end in
  match parse_digits radix s3 None with
  | Some n => Num (sign * n)
  | None => NaN
  end.

(** ** Entities and GraphQL types *)

(** Modelled from the spec: the entity [../entities/User] is not among the
    sources.  A user record has an integer id, a username, an email and the
    digest of the password. *)
Module User.
Record t := mk {
  id : Z;
  username : string;
  email : string;
  password : string
}.

Definition with_password (p : string) (u : t) : t :=
  {| id := id u; username := username u; email := email u; password := p |}.
End User.

(** Modelled from the spec: [../types/UserMutationResponse] is not among the
    sources.  A mutation result has a code, a success flag, a message, an
    optional ordered sequence of field errors and an optional user. *)
Module FieldError.
Record t := mk {
  field : string;
  message : string
}.
End FieldError.

Module UserMutationResponse.
Record t := mk {
  code : Z;
  success : bool;
  message : string;
  errors : option (list FieldError.t);
  user : option User.t
}.
End UserMutationResponse.

(** Modelled from the spec: the input types of [../types] are not among the
    sources; each has the fields the resolvers read. *)
Record RegisterInput := {
  reg_username : string;
  reg_email : string;
  reg_password : string
}.

Record LoginInput := {
  usernameOrEmail : string;
  login_password : string
}.

Record ForgotPasswordInput := {
  forgot_email : string
}.

Record ChangePasswordInput := {
  newPassword : string
}.

(** Modelled from the spec: what [validateRegisterInput] returns when it is
    not [null], field-level errors with a message; the resolver spreads it
    into the response. *)
Record ValidationErrors := {
  val_message : string;
  val_errors : list FieldError.t
}.

(** ** The collaborators *)

(** The argument of [User.findOne]. *)
Inductive Criterion :=
| HasUsername (s : string)
| HasEmail (s : string).

Inductive FindOptions :=
| FindById (n : JsNumber)              (* User.findOne(id) *)
| FindBy (c : Criterion)               (* User.findOne({ field: value }) *)
| FindWhere (alts : list Criterion).   (* User.findOne({ where: [c1, c2] }) *)

Definition meets (u : User.t) (c : Criterion) : bool :=
  match c with
  | HasUsername s => String.eqb (User.username u) s
  | HasEmail s => String.eqb (User.email u) s
  end.

Definition matches (o : FindOptions) (u : User.t) : bool :=
  match o with
  | FindById n => JsNumber_eqb (Num (User.id u)) n
  | FindBy c => meets u c
  | FindWhere alts => existsb (meets u) alts
  end.

(** The external calls that can fail. *)
Inductive Fault :=
| FDbFind | FDbSave | FDbUpdate
| FHash | FVerify
| FRedisSet | FRedisGet | FRedisDel
| FSendEmail
| FSessionDestroy.

(** One entry per call made to a collaborator, newest first. *)
Inductive Event :=
| EvFindOne (o : FindOptions)
| EvSave (username email : string)
| EvUpdate (n : JsNumber) (password : string)
| EvHash (plain : string)
| EvVerify (digest plain : string)
| EvRedisSet (key value : string) (seconds : Z)
| EvRedisGet (key : string)
| EvRedisDel (key : string)
| EvSendEmail (to html : string)
| EvSessionDestroy
| EvConsoleLog (text : string).

Record World := mkWorld {
  users : list User.t;                (* rows of the user table, in the order the store scans them *)
  next_id : Z;                        (* the next generated primary key *)
  redis : gmap string (string * Z);   (* key -> (value, instant at which the key expires) *)
  now : Z;                            (* the clock, in seconds *)
  session_userId : option Z;          (* req.session.userId *)
  cleared_cookies : list string;      (* cookies the response clears *)
  trace : list Event;
  entropy : nat -> string;            (* the random strings still to be drawn *)
  drawn : nat;
  faults : Fault -> bool              (* which external calls fail *)
}.

Definition with_users (f : list User.t -> list User.t) (w : World) : World :=
  mkWorld (f (users w)) (next_id w) (redis w) (now w) (session_userId w)
          (cleared_cookies w) (trace w) (entropy w) (drawn w) (faults w).

Definition with_next_id (n : Z) (w : World) : World :=
  mkWorld (users w) n (redis w) (now w) (session_userId w)
          (cleared_cookies w) (trace w) (entropy w) (drawn w) (faults w).

Definition with_redis (f : gmap string (string * Z) -> gmap string (string * Z))
    (w : World) : World :=
  mkWorld (users w) (next_id w) (f (redis w)) (now w) (session_userId w)
          (cleared_cookies w) (trace w) (entropy w) (drawn w) (faults w).

Definition with_now (t : Z) (w : World) : World :=
  mkWorld (users w) (next_id w) (redis w) t (session_userId w)
          (cleared_cookies w) (trace w) (entropy w) (drawn w) (faults w).

Definition with_session_userId (s : option Z) (w : World) : World :=
  mkWorld (users w) (next_id w) (redis w) (now w) s
          (cleared_cookies w) (trace w) (entropy w) (drawn w) (faults w).

Definition with_cleared_cookies (f : list string -> list string) (w : World) : World :=
  mkWorld (users w) (next_id w) (redis w) (now w) (session_userId w)
          (f (cleared_cookies w)) (trace w) (entropy w) (drawn w) (faults w).

Definition with_trace (f : list Event -> list Event) (w : World) : World :=
  mkWorld (users w) (next_id w) (redis w) (now w) (session_userId w)
          (cleared_cookies w) (f (trace w)) (entropy w) (drawn w) (faults w).

Definition with_drawn (n : nat) (w : World) : World :=
  mkWorld (users w) (next_id w) (redis w) (now w) (session_userId w)
          (cleared_cookies w) (trace w) (entropy w) n (faults w).

Definition with_faults (f : Fault -> bool) (w : World) : World :=
  mkWorld (users w) (next_id w) (redis w) (now w) (session_userId w)
          (cleared_cookies w) (trace w) (entropy w) (drawn w) f.

(** ** The monad of resolvers *)

Inductive Outcome (A : Type) :=
| Ok (a : A)
| Throw (error_message : string).

Arguments Ok {A} a.
Arguments Throw {A} error_message.

Definition M (A : Type) : Type := World -> Outcome A * World.

Definition ret {A} (a : A) : M A := fun w => (Ok a, w).

Definition bind {A B} (m : M A) (k : A -> M B) : M B :=
  fun w =>
    match m w with
    | (Ok a, w') => k a w'
    | (Throw e, w') => (Throw e, w')
    end.

Definition throw {A} (e : string) : M A := fun w => (Throw e, w).

(** [try { body } catch (error) { handler }]: what the body did before it
    threw stays done. *)
Definition try_catch {A} (body : M A) (handler : string -> M A) : M A :=
  fun w =>
    match body w with
    | (Ok a, w') => (Ok a, w')
    | (Throw e, w') => handler e w'
    end.

Definition gets {A} (f : World -> A) : M A := fun w => (Ok (f w), w).
Definition modify (f : World -> World) : M unit := fun w => (Ok tt, f w).

Declare Scope resolver_scope.
Delimit Scope resolver_scope with resolver.
Notation "'let!' x ':=' m 'in' k" := (bind m (fun x => k))
  (at level 10, x name, m at level 100, k at level 200) : resolver_scope.
Notation "'run!' m 'in' k" := (bind m (fun _ => k))
  (at level 10, m at level 100, k at level 200) : resolver_scope.
Open Scope resolver_scope.

Definition emit (e : Event) : M unit := modify (with_trace (cons e)).

(** An external call is recorded, then fails when its fault is armed. *)
Definition external (e : Event) (f : Fault) (what : string) : M unit :=
  run! emit e in
  let! broken := gets (fun w => faults w f) in
  if broken then throw what else ret tt.

Definition draw : M string :=
  fun w => (Ok (entropy w (drawn w)), with_drawn (S (drawn w)) w).

Definition console_log (text : string) : M unit := emit (EvConsoleLog text).

(** A promise under construction settles once: a later [resolve] is ignored. *)
Definition resolve {A} (v : A) (p : option A) : option A :=
  match p with
  | None => Some v
  | Some _ => p
  end.

Definition await_promise {A} (p : option A) : M A :=
  match p with
  | Some v => ret v
  | None => throw "the promise never settles"
  end.

(** JavaScript's [!r] for [r : string | null]. *)
Definition falsy (r : option string) : bool :=
  match r with
  | None => true
  | Some EmptyString => true
  | Some (String _ _) => false
  end.

Definition double_quote : string := String "034"%char EmptyString.

(** *** TypeORM: the user table *)

(** The row the store answers with: the first one, in scan order, that
    matches. *)
Definition find_user (o : FindOptions) (w : World) : option User.t :=
  List.find (matches o) (users w).

Definition User_findOne (o : FindOptions) : M (option User.t) :=
  run! external (EvFindOne o) FDbFind "the user lookup failed" in
  gets (find_user o).

(** [User.create({ username, password, email })] followed by [save()]: the
    row gets the next primary key. *)
Definition User_save (username password email : string) : M User.t :=
  run! external (EvSave username email) FDbSave "the user insert failed" in
  let! n := gets next_id in
  let newUser := User.mk n username email password in
  run! modify (fun w => with_next_id (n + 1) (with_users (fun rows => rows ++ [newUser]) w)) in
  ret newUser.

(** [User.update({ id: n }, { password })]. *)
Definition User_update (n : JsNumber) (password : string) : M unit :=
  run! external (EvUpdate n password) FDbUpdate "the user update failed" in
  modify (with_users
            (map (fun u => if matches (FindById n) u then User.with_password password u else u))).

(** *** ioredis *)

(** Is the entry still there at instant [t]? *)
Definition live (t : Z) (entry : option (string * Z)) : option string :=
  match entry with
  | Some (value, expires) => if t <? expires then Some value else None
  | None => None
  end.

(** [redis.set(key, value, "EX", seconds)] *)
Definition redis_set (key value : string) (seconds : Z) : M unit :=
  run! external (EvRedisSet key value seconds) FRedisSet "the cache write failed" in
  modify (fun w => with_redis (insert key (value, now w + seconds)) w).

Definition redis_get (key : string) : M (option string) :=
  run! external (EvRedisGet key) FRedisGet "the cache read failed" in
  gets (fun w => live (now w) (redis w !! key)).

Definition redis_del (key : string) : M unit :=
  run! external (EvRedisDel key) FRedisDel "the cache delete failed" in
  modify (with_redis (delete key)).

(** *** Mailer, session, response, uuid *)

(** Modelled from the spec: [../utils/sendEmail] is not among the sources.
    The mail dispatcher is handed the reset link; like every awaited call it
    may reject. *)
Definition sendEmail (to html : string) : M unit :=
  external (EvSendEmail to html) FSendEmail "the email dispatch failed".

(** The emails handed to the mailer so far, newest first. *)
Definition sent_emails (w : World) : list (string * string) :=
  omap (fun e => match e with EvSendEmail to html => Some (to, html) | _ => None end)
       (trace w).

Definition set_session_userId (n : Z) : M unit :=
  modify (with_session_userId (Some n)).

(** [req.session.destroy(callback)]: the value handed to the callback, [None]
    when the store removed the session. *)
Definition session_destroy : M (option string) :=
  run! emit EvSessionDestroy in
  let! broken := gets (fun w => faults w FSessionDestroy) in
  if broken then ret (Some "the session store failed")
  else run! modify (with_session_userId None) in ret None.

Definition clearCookie (name : string) : M unit :=
  modify (with_cleared_cookies (cons name)).

Definition v4 : M string := draw.

(** ** A request log

    What happens between two calls of interest: other mutations, the clock
    moving on, the environment arming or disarming faults, a request that
    carries another session. *)
Inductive Action :=
| DoRegister (registerInput : RegisterInput)
| DoLogin (loginInput : LoginInput)
| DoLogout
| DoForgotPassword (forgotPasswordInput : ForgotPasswordInput)
| DoChangePassword (token userId : string) (changePasswordInput : ChangePasswordInput)
| Elapse (seconds : N)
| Arm (armed : Fault -> bool)
| OtherSession (userId : option Z).

(** ** Sample data *)

Definition no_faults : Fault -> bool := fun _ => false.

Definition only (f : Fault) : Fault -> bool :=
  fun g =>
    match f, g with
    | FDbFind, FDbFind | FDbSave, FDbSave | FDbUpdate, FDbUpdate
    | FHash, FHash | FVerify, FVerify
    | FRedisSet, FRedisSet | FRedisGet, FRedisGet | FRedisDel, FRedisDel
    | FSendEmail, FSendEmail | FSessionDestroy, FSessionDestroy => true
    | _, _ => false
    end.

Definition sample_uuid (n : nat) : string := "uuid-" +:+ pretty n.

Definition sample_prefix : string := "forgot-password:".
Definition sample_cookie : string := "session-cookie".
Definition sample_validate (_ : RegisterInput) : option ValidationErrors := None.
Definition sample_hash (salt plain : string) : string := salt +:+ "$" +:+ plain.
Definition sample_verify (digest plain : string) : bool :=
  String.eqb digest ("salt$" +:+ plain).

Definition bob : User.t := User.mk 1 "bob" "a@x.com" "salt$builder".
Definition alice : User.t := User.mk 2 "alice" "c@x.com" "salt$wonderland".

Definition sample_log : list Action :=
  [DoForgotPassword {| forgot_email := "c@x.com" |}; Elapse 10; DoLogout].

Definition sample_world : World :=
  mkWorld [bob; alice] 3 ∅ 0 None [] [] sample_uuid 0 no_faults.

(** A world in which a reset token for bob (id 1) has been issued at instant
    0 and is still in the cache. *)
Definition world_with_token : World :=
  with_redis (insert "forgot-password:uuid-0" ("1", 259200000)) (with_drawn 1 sample_world).

(** ** The resolvers *)

Section UserResolver.

(** The constants of [../constants] and the validator of
    [../utils/validateRegisterInput] are not among the sources, and argon2 is
    a library: the resolvers are written for any values of them.  The salt
    is the first argument of [argon2_hash]. *)
Variable COOKIE_NAME : string.
Variable FORGET_PASSWORD_PREFIX : string.
Variable validateRegisterInput : RegisterInput -> option ValidationErrors.
Variable argon2_hash : string -> string -> string.
Variable argon2_verify : string -> string -> bool.

Definition hash (plain : string) : M string :=
  run! external (EvHash plain) FHash "hashing failed" in
  let! salt := draw in
  ret (argon2_hash salt plain).

Definition verify (digest plain : string) : M bool :=
  run! external (EvVerify digest plain) FVerify "verification failed" in
  ret (argon2_verify digest plain).

Definition internal_server_error (error : string) : M UserMutationResponse.t :=
  run! console_log error in
  ret {| UserMutationResponse.code := 500;
         UserMutationResponse.success := false;
         UserMutationResponse.message := "Internal server error " +:+ error;
         UserMutationResponse.errors := None;
         UserMutationResponse.user := None |}.

Definition register (registerInput : RegisterInput) : M UserMutationResponse.t :=
  match validateRegisterInput registerInput with
  | Some validateRegisterInputErrors =>
      ret {| UserMutationResponse.code := 400;
             UserMutationResponse.success := false;
             UserMutationResponse.message := val_message validateRegisterInputErrors;
             UserMutationResponse.errors := Some (val_errors validateRegisterInputErrors);
             UserMutationResponse.user := None |}
  | None =>
      try_catch
        (let username := reg_username registerInput in
         let email := reg_email registerInput in
         let password := reg_password registerInput in
         let! existingUser :=
           User_findOne (FindWhere [HasUsername username; HasEmail email]) in
         match existingUser with
         | Some existingUser =>
             ret {| UserMutationResponse.code := 400;
                    UserMutationResponse.success := false;
                    UserMutationResponse.message := "Duplicated username or email";
                    UserMutationResponse.errors :=
                      Some [ {| FieldError.field :=
                                  if String.eqb (User.username existingUser) username
                                  then "username" else "email";
                                FieldError.message :=
                                  (if String.eqb (User.username existingUser) username
                                   then "Username" else "Email") +:+ " already taken" |} ];
                    UserMutationResponse.user := None |}
         | None =>
             let! hashedPassword := hash password in
             let! newUser := User_save username hashedPassword email in
             run! set_session_userId (User.id newUser) in
             ret {| UserMutationResponse.code := 200;
                    UserMutationResponse.success := true;
                    UserMutationResponse.message := "User registration successful";
                    UserMutationResponse.errors := None;
                    UserMutationResponse.user := Some newUser |}
         end)
        internal_server_error
  end.

Definition login (loginInput : LoginInput) : M UserMutationResponse.t :=
  let usernameOrEmail := usernameOrEmail loginInput in
  let password := login_password loginInput in
  try_catch
    (let! existingUser :=
       User_findOne
         (if includes "@"%char usernameOrEmail
          then FindBy (HasEmail usernameOrEmail)
          else FindBy (HasUsername usernameOrEmail)) in
     match existingUser with
     | None =>
         ret {| UserMutationResponse.code := 400;
                UserMutationResponse.success := false;
                UserMutationResponse.message := "User not found";
                UserMutationResponse.errors :=
                  Some [ {| FieldError.field := "usernameOrEmail";
                            FieldError.message := "Username or email incorrect" |} ];
                UserMutationResponse.user := None |}
     | Some existingUser =>
         let! passwordValid := verify (User.password existingUser) password in
         if negb passwordValid then
           ret {| UserMutationResponse.code := 400;
                  UserMutationResponse.success := false;
                  UserMutationResponse.message := "Wrong password";
                  UserMutationResponse.errors :=
                    Some [ {| FieldError.field := "password";
                              FieldError.message := "Wrong password" |} ];
                  UserMutationResponse.user := None |}
         else
           run! set_session_userId (User.id existingUser) in
           ret {| UserMutationResponse.code := 200;
                  UserMutationResponse.success := true;
                  UserMutationResponse.message := "Logged in successfully";
                  UserMutationResponse.errors := None;
                  UserMutationResponse.user := Some existingUser |}
     end)
    internal_server_error.

(** The executor of the promise runs to its end: after [resolve(false)] in
    the error branch, [resolve(true)] is still called. *)
Definition logout : M bool :=
  run! clearCookie COOKIE_NAME in
  let! error := session_destroy in
  let! promise :=
    match error with
    | Some error =>
        run! console_log ("DESTROYING SESSION ERROR " +:+ error) in
        ret (resolve false None)
    | None => ret None
    end in
  await_promise (resolve true promise).

Definition reset_link (token : string) (userId : Z) : string :=
  "<a href=" +:+ double_quote
  +:+ "http://localhost:3000/change-password?token=" +:+ token
  +:+ "&userId=" +:+ Number_toString userId
  +:+ double_quote +:+ ">Click here to reset your password</a>".

Definition forgotPassword (forgotPasswordInput : ForgotPasswordInput) : M bool :=
  let! user := User_findOne (FindBy (HasEmail (forgot_email forgotPasswordInput))) in
  match user with
  | None => ret true
  | Some user =>
      let! token := v4 in
      run! redis_set (FORGET_PASSWORD_PREFIX +:+ token)
                     (Number_toString (User.id user))
                     (1000 * 60 * 60 * 24 * 3) in
      run! sendEmail (forgot_email forgotPasswordInput)
                     (reset_link token (User.id user)) in
      ret true
  end.

Definition changePassword (token userId : string)
    (changePasswordInput : ChangePasswordInput) : M UserMutationResponse.t :=
  if (String.length (newPassword changePasswordInput) <=? 2)%nat then
    ret {| UserMutationResponse.code := 400;
           UserMutationResponse.success := false;
           UserMutationResponse.message := "Invalid password";
           UserMutationResponse.errors :=
             Some [ {| FieldError.field := "newPassword";
                       FieldError.message := "Length must be greater than 2" |} ];
           UserMutationResponse.user := None |}
  else
    try_catch
      (let key := FORGET_PASSWORD_PREFIX +:+ token in
       let! resetPasswordTokenRecord := redis_get key in
       if falsy resetPasswordTokenRecord then
         ret {| UserMutationResponse.code := 400;
                UserMutationResponse.success := false;
                UserMutationResponse.message := "Invalid or expired password reset token";
                UserMutationResponse.errors :=
                  Some [ {| FieldError.field := "token";
                            FieldError.message :=
                              "Invalid or expired password reset token" |} ];
                UserMutationResponse.user := None |}
       else
         let userIdNum := parseInt userId in
         let! user := User_findOne (FindById userIdNum) in
         match user with
         | None =>
             ret {| UserMutationResponse.code := 400;
                    UserMutationResponse.success := false;
                    UserMutationResponse.message := "User no longer exists";
                    UserMutationResponse.errors :=
                      Some [ {| FieldError.field := "token";
                                FieldError.message := "User no longer exists" |} ];
                    UserMutationResponse.user := None |}
         | Some user =>
             let! updatedPassword := hash (newPassword changePasswordInput) in
             run! User_update userIdNum updatedPassword in
             run! redis_del key in
             run! set_session_userId (User.id user) in
             ret {| UserMutationResponse.code := 200;
                    UserMutationResponse.success := true;
                    UserMutationResponse.message := "User password reset successfully";
                    UserMutationResponse.errors := None;
                    UserMutationResponse.user := Some user |}
         end)
      internal_server_error.

(** One step of the request log; the value a mutation returns is dropped. *)
Definition perform (a : Action) (w : World) : World :=
  match a with
  | DoRegister registerInput => snd (register registerInput w)
  | DoLogin loginInput => snd (login loginInput w)
  | DoLogout => snd (logout w)
  | DoForgotPassword forgotPasswordInput => snd (forgotPassword forgotPasswordInput w)
  | DoChangePassword token userId changePasswordInput =>
      snd (changePassword token userId changePasswordInput w)
  | Elapse seconds => with_now (now w + Z.of_N seconds) w
  | Arm armed => with_faults armed w
  | OtherSession userId => with_session_userId userId w
  end.

Definition perform_all (log : list Action) (w : World) : World :=
  fold_left (fun w a => perform a w) log w.

(** The reset token [token] is in the cache and has not expired. *)
Definition token_record (token : string) (w : World) : option string :=
  live (now w) (redis w !! (FORGET_PASSWORD_PREFIX +:+ token)).

(** The random source will not produce [token] from now on. *)
Definition never_again (token : string) (w : World) : Prop :=
  forall n, (drawn w <= n)%nat -> entropy w n <> token.

Definition response_invalid_password : UserMutationResponse.t :=
  {| UserMutationResponse.code := 400;
     UserMutationResponse.success := false;
     UserMutationResponse.message := "Invalid password";
     UserMutationResponse.errors :=
       Some [ {| FieldError.field := "newPassword";
                 FieldError.message := "Length must be greater than 2" |} ];
     UserMutationResponse.user := None |}.

Definition response_invalid_token : UserMutationResponse.t :=
  {| UserMutationResponse.code := 400;
     UserMutationResponse.success := false;
     UserMutationResponse.message := "Invalid or expired password reset token";
     UserMutationResponse.errors :=
       Some [ {| FieldError.field := "token";
                 FieldError.message := "Invalid or expired password reset token" |} ];
     UserMutationResponse.user := None |}.

Definition response_user_gone : UserMutationResponse.t :=
  {| UserMutationResponse.code := 400;
     UserMutationResponse.success := false;
     UserMutationResponse.message := "User no longer exists";
     UserMutationResponse.errors :=
       Some [ {| FieldError.field := "token";
                 FieldError.message := "User no longer exists" |} ];
     UserMutationResponse.user := None |}.

Definition response_password_reset (user : User.t) : UserMutationResponse.t :=
  {| UserMutationResponse.code := 200;
     UserMutationResponse.success := true;
     UserMutationResponse.message := "User password reset successfully";
     UserMutationResponse.errors := None;
     UserMutationResponse.user := Some user |}.

Definition response_user_not_found : UserMutationResponse.t :=
  {| UserMutationResponse.code := 400;
     UserMutationResponse.success := false;
     UserMutationResponse.message := "User not found";
     UserMutationResponse.errors :=
       Some [ {| FieldError.field := "usernameOrEmail";
                 FieldError.message := "Username or email incorrect" |} ];
     UserMutationResponse.user := None |}.

Definition response_wrong_password : UserMutationResponse.t :=
  {| UserMutationResponse.code := 400;
     UserMutationResponse.success := false;
     UserMutationResponse.message := "Wrong password";
     UserMutationResponse.errors :=
       Some [ {| FieldError.field := "password";
                 FieldError.message := "Wrong password" |} ];
     UserMutationResponse.user := None |}.

Definition response_logged_in (user : User.t) : UserMutationResponse.t :=
  {| UserMutationResponse.code := 200;
     UserMutationResponse.success := true;
     UserMutationResponse.message := "Logged in successfully";
     UserMutationResponse.errors := None;
     UserMutationResponse.user := Some user |}.


(** A token is spent when the cache has no live entry for it and the random
    source will not produce it again. *)
Definition spent (token : string) (w : World) : Prop :=
  token_record token w = None /\ never_again token w.


(** ** The two queries of the resolver *)

(** [a === b] for [a : number | undefined] and a number [b]. *)
Definition strict_equal (a : option Z) (b : Z) : bool :=
  match a with
  | Some n => n =? b
  | None => false
  end.

(** JavaScript's [!a] for [a : number | undefined]. *)
Definition falsy_number (a : option Z) : bool :=
  match a with
  | Some n => n =? 0
  | None => true
  end.

(** The field resolver [email(user)]. *)
Definition email (user : User.t) : M string :=
  let! userId := gets session_userId in
  ret (if strict_equal userId (User.id user) then User.email user else "").

(** The query [me]; [null] and [undefined] are both [None]. *)
Definition me : M (option User.t) :=
  let! userId := gets session_userId in
  if falsy_number userId then ret None
  else User_findOne (FindById (match userId with Some n => Num n | None => NaN end)).

(** ** Invariants of the store *)

(** Primary keys, usernames and emails are pairwise different, and every
    primary key in use is below the next one to be generated. *)
Definition store_ok (w : World) : Prop :=
  NoDup (map User.id (users w))
  /\ NoDup (map User.username (users w))
  /\ NoDup (map User.email (users w))
  /\ Forall (fun u => User.id u < next_id w) (users w).

(** What identifies a row: everything but the digest. *)
Definition identity (u : User.t) : Z * string * string :=
  (User.id u, User.username u, User.email u).

(** The three shapes a mutation response takes. *)
Definition uniform (r : UserMutationResponse.t) : Prop :=
  (UserMutationResponse.code r = 200
   /\ UserMutationResponse.success r = true
   /\ UserMutationResponse.errors r = None
   /\ UserMutationResponse.user r <> None)
  \/ (UserMutationResponse.code r = 400
      /\ UserMutationResponse.success r = false
      /\ UserMutationResponse.errors r <> None
      /\ UserMutationResponse.user r = None)
  \/ (UserMutationResponse.code r = 500
      /\ UserMutationResponse.success r = false
      /\ UserMutationResponse.errors r = None
      /\ UserMutationResponse.user r = None).

Definition response_registered (user : User.t) : UserMutationResponse.t :=
  {| UserMutationResponse.code := 200;
     UserMutationResponse.success := true;
     UserMutationResponse.message := "User registration successful";
     UserMutationResponse.errors := None;
     UserMutationResponse.user := Some user |}.

(** ** Decimal digits *)

Definition is_digit (c : ascii) : bool :=
  match digit_value 10 c with
  | Some _ => true
  | None => false
  end.

Fixpoint all_digits (s : string) : bool :=
  match s with
  | EmptyString => true
  | String c s' => is_digit c && all_digits s'
  end.

(** ** More sample data *)

Definition carol_input : RegisterInput :=
  {| reg_username := "carol"; reg_email := "carol@x.com"; reg_password := "secret" |}.

(** The sample world with a random source that always answers [salt], the
    salt that [sample_verify] expects. *)
Definition salted_world : World :=
  mkWorld [bob; alice] 3 ∅ 0 None [] [] (fun _ => "salt") 0 no_faults.

Definition busy_log : list Action :=
  [ DoRegister carol_input;
    DoForgotPassword {| forgot_email := "a@x.com" |};
    DoChangePassword "uuid-1" "1" {| newPassword := "rebuilt" |};
    Elapse 5;
    DoLogin {| usernameOrEmail := "carol"; login_password := "secret" |};
    DoLogout ].

(** ** Properties *)


(** Unfolds a resolver down to the world it is applied to. *)
Ltac unfold_resolver :=
  unfold register, login, logout, forgotPassword, changePassword, try_catch,
    internal_server_error, redis_get, redis_set, redis_del, User_findOne, User_save,
    User_update, hash, verify, sendEmail, v4, set_session_userId, session_destroy,
    clearCookie, await_promise, external, console_log, emit, draw, modify, gets,
    bind, ret, throw in *.

Ltac split_cases := repeat (case_match; simplify_eq/=).

(** *** The length check of [changePassword] *)

(** C7: a new password of at most 2 characters is answered with code 400,
    success false and the single field error on newPassword; the world,
    trace of external calls included, is returned as it was, so the cache
    is not read and the token plays no part in the answer. *)
Theorem changePassword_short_password token userId changePasswordInput w :
  (String.length (newPassword changePasswordInput) <= 2)%nat ->
  changePassword token userId changePasswordInput w
  = (Ok response_invalid_password, w).
Proof.
  intros Hlen. unfold changePassword.
  destruct (Nat.leb_spec (String.length (newPassword changePasswordInput)) 2);
    [reflexivity | lia].
Qed.

(** C10: when [changePassword] answers with code 400, the user table, the
    cache and the session are as they were before the call. *)
Theorem changePassword_400_changes_nothing token userId changePasswordInput w r w' :
  changePassword token userId changePasswordInput w = (Ok r, w') ->
  UserMutationResponse.code r = 400 ->
  users w' = users w /\ redis w' = redis w /\ session_userId w' = session_userId w.
Proof.
  intros Hrun Hcode. unfold_resolver. split_cases; done.
Qed.

(** *** [logout] *)

(** C8: [logout] always puts the session cookie among the cookies the
    response clears, never throws, and returns true exactly when the
    session store reports no error. *)
Theorem logout_clears_cookie w :
  exists w',
    logout w = (Ok (negb (faults w FSessionDestroy)), w')
    /\ cleared_cookies w' = COOKIE_NAME :: cleared_cookies w
    /\ session_userId w' = (if faults w FSessionDestroy then session_userId w else None).
Proof.
  unfold_resolver. cbn. destruct (faults w FSessionDestroy); cbn; eauto.
Qed.

(** *** [login] *)

(** C6: [login] looks the user up by email when usernameOrEmail contains
    an at sign and by username otherwise.  No row: code 400 with a field
    error on usernameOrEmail.  A row whose digest does not verify: code 400
    with a field error on password, and another message.  Otherwise the
    session's userId becomes the row's id and the answer is the success
    response with that row. *)
Theorem login_cases loginInput w :
  faults w FDbFind = false ->
  let found :=
    if includes "@"%char (usernameOrEmail loginInput)
    then find_user (FindBy (HasEmail (usernameOrEmail loginInput))) w
    else find_user (FindBy (HasUsername (usernameOrEmail loginInput))) w in
  (found = None ->
     exists w', login loginInput w = (Ok response_user_not_found, w')
                /\ session_userId w' = session_userId w)
  /\ (forall existingUser,
        found = Some existingUser ->
        faults w FVerify = false ->
        argon2_verify (User.password existingUser) (login_password loginInput) = false ->
        exists w', login loginInput w = (Ok response_wrong_password, w')
                   /\ session_userId w' = session_userId w)
  /\ (forall existingUser,
        found = Some existingUser ->
        faults w FVerify = false ->
        argon2_verify (User.password existingUser) (login_password loginInput) = true ->
        exists w', login loginInput w = (Ok (response_logged_in existingUser), w')
                   /\ session_userId w' = Some (User.id existingUser))
  /\ response_user_not_found <> response_wrong_password.
Proof.
  intros Hfind found. subst found. unfold find_user.
  repeat split.
  - intros Hnone. unfold_resolver. unfold find_user. cbn. rewrite Hfind. cbn.
    destruct (includes _ _); rewrite Hnone; eauto.
  - intros u Hsome Hverify Hbad. unfold_resolver. unfold find_user. cbn.
    rewrite Hfind. cbn.
    destruct (includes _ _); rewrite Hsome; cbn; rewrite Hverify; cbn;
      rewrite Hbad; cbn; eauto.
  - intros u Hsome Hverify Hgood. unfold_resolver. unfold find_user. cbn.
    rewrite Hfind. cbn.
    destruct (includes _ _); rewrite Hsome; cbn; rewrite Hverify; cbn;
      rewrite Hgood; cbn; eauto.
  - discriminate.
Qed.

(** *** What an issued token looks like *)

Lemma pretty_N_go_grows x s :
  (String.length s <= String.length (pretty_N_go x s))%nat.
Proof.
  revert s. induction (N.lt_wf_0 x) as [x _ IH]. intros s.
  destruct (decide (x = 0)%N) as [-> | Hpos].
  - rewrite pretty_N_go_0. lia.
  - rewrite pretty_N_go_step by lia.
    etrans; [ | apply IH, N.div_lt; lia ]. cbn. lia.
Qed.

(** The decimal text of an integer is not the empty string, so the value
    [forgotPassword] stores is never falsy. *)
Lemma Number_toString_truthy n : falsy (Some (Number_toString n)) = false.
Proof.
  destruct n as [ | p | p ]; [ reflexivity | | reflexivity ].
  unfold Number_toString, pretty, pretty_Z, pretty, pretty_positive, pretty, pretty_N.
  destruct (decide (N.pos p = 0)%N) as [ | _ ]; [ reflexivity | ].
  rewrite pretty_N_go_step by lia.
  pose proof (pretty_N_go_grows (N.pos p `div` 10)
                (String (pretty_N_char (N.pos p `mod` 10)) "")) as Hlen.
  destruct (pretty_N_go _ _); [ cbn in Hlen; lia | reflexivity ].
Qed.

Lemma find_after_update n p rows :
  List.find (matches (FindById n))
    (map (fun u => if matches (FindById n) u then User.with_password p u else u) rows)
  = User.with_password p <$> List.find (matches (FindById n)) rows.
Proof.
  induction rows as [ | u rows IH ]; [ reflexivity | ].
  cbn [map List.find]. destruct (matches (FindById n) u) eqn:Hu.
  - change (matches (FindById n) (User.with_password p u)) with (matches (FindById n) u).
    rewrite Hu. reflexivity.
  - rewrite Hu. exact IH.
Qed.

Lemma find_where_some un em rows :
  (exists u, In u rows /\ (User.username u = un \/ User.email u = em)) ->
  exists existing,
    List.find (matches (FindWhere [HasUsername un; HasEmail em])) rows = Some existing
    /\ In existing rows
    /\ (User.username existing = un \/ User.email existing = em).
Proof using Type.
  intros (u & Hin & Hu).
  destruct (List.find (matches (FindWhere [HasUsername un; HasEmail em])) rows)
    as [ existing | ] eqn:Hfind.
  - apply find_some in Hfind as [Hin' Hm]. exists existing. split; [ reflexivity | ].
    split; [ exact Hin' | ]. cbn in Hm.
    rewrite orb_false_r in Hm. apply orb_true_iff in Hm as [ Hm | Hm ];
      apply String.eqb_eq in Hm; auto.
  - exfalso. pose proof (find_none _ _ Hfind u Hin) as Hm. cbn in Hm.
    rewrite orb_false_r in Hm. apply orb_false_iff in Hm as [ H1 H2 ].
    apply String.eqb_neq in H1, H2. destruct Hu; contradiction.
Qed.

(** *** [changePassword] past the length check *)

(** C2: [changePassword] does not look at the value stored under the
    token.  With a new password longer than 2 characters, a live token
    issued for any user A, a userId that names a row B, and the external
    calls completing, the call succeeds with B, B's row gets the new
    digest, the token is deleted and the session's userId is B's id. *)
Theorem changePassword_ignores_token_owner token userId changePasswordInput w A B :
  (2 < String.length (newPassword changePasswordInput))%nat ->
  token_record token w = Some (Number_toString A) ->
  find_user (FindById (parseInt userId)) w = Some B ->
  faults w FRedisGet = false -> faults w FDbFind = false -> faults w FHash = false ->
  faults w FDbUpdate = false -> faults w FRedisDel = false ->
  exists w',
    changePassword token userId changePasswordInput w
    = (Ok (response_password_reset B), w')
    /\ find_user (FindById (parseInt userId)) w'
       = Some (User.with_password
                 (argon2_hash (entropy w (drawn w)) (newPassword changePasswordInput)) B)
    /\ redis w' = delete (FORGET_PASSWORD_PREFIX +:+ token) (redis w)
    /\ session_userId w' = Some (User.id B).
Proof.
  intros Hlen Htoken Huser Hget Hfind Hhash Hupdate Hdel.
  unfold token_record, find_user in *. unfold_resolver. unfold find_user.
  destruct (Nat.leb_spec (String.length (newPassword changePasswordInput)) 2);
    [ lia | ].
  cbn. rewrite Hget. cbn. rewrite Htoken, Number_toString_truthy.
  cbn. rewrite Hfind. cbn. rewrite Huser. cbn. rewrite Hhash. cbn.
  rewrite Hupdate. cbn. rewrite Hdel. cbn.
  eexists. split; [ reflexivity | ]. cbn.
  rewrite find_after_update, Huser. auto.
Qed.

(** C9: with a new password longer than 2 characters, a live token and a
    userId that names no row, the answer is code 400 with the field error
    on token and the message User no longer exists; nothing is updated. *)
Theorem changePassword_user_gone token userId changePasswordInput w A :
  (2 < String.length (newPassword changePasswordInput))%nat ->
  token_record token w = Some (Number_toString A) ->
  find_user (FindById (parseInt userId)) w = None ->
  faults w FRedisGet = false -> faults w FDbFind = false ->
  exists w',
    changePassword token userId changePasswordInput w = (Ok response_user_gone, w')
    /\ users w' = users w /\ redis w' = redis w.
Proof.
  intros Hlen Htoken Huser Hget Hfind.
  unfold token_record, find_user in *. unfold_resolver. unfold find_user.
  destruct (Nat.leb_spec (String.length (newPassword changePasswordInput)) 2);
    [ lia | ].
  cbn. rewrite Hget. cbn. rewrite Htoken, Number_toString_truthy.
  cbn. rewrite Hfind. cbn. rewrite Huser. cbn. eauto.
Qed.

(** *** [forgotPassword] *)

(** What [forgotPassword] writes for a user it finds: the expiry instant is
    the current one plus the product 1000 * 60 * 60 * 24 * 3, read by the
    cache as a number of seconds. *)
Lemma forgotPassword_stores_token forgotPasswordInput w user :
  find_user (FindBy (HasEmail (forgot_email forgotPasswordInput))) w = Some user ->
  faults w FDbFind = false -> faults w FRedisSet = false ->
  redis (snd (forgotPassword forgotPasswordInput w))
  !! (FORGET_PASSWORD_PREFIX +:+ entropy w (drawn w))
  = Some (Number_toString (User.id user), now w + 259200000).
Proof.
  intros Huser Hfind Hset. unfold find_user in Huser.
  unfold_resolver. unfold find_user. cbn. rewrite Hfind. cbn.
  rewrite Huser. cbn. rewrite Hset. cbn.
  destruct (faults w FSendEmail); cbn; apply lookup_insert_eq.
Qed.

(** C3: once the lookup has completed, [forgotPassword] returns true when
    no row has the email (the cache is not written and no email is handed to
    the mailer) and when a row has it and both the cache write and the email
    dispatch complete.  It catches nothing: a failing cache write or a
    failing email dispatch leaves the call as a thrown error. *)
Theorem forgotPassword_outcomes forgotPasswordInput w :
  faults w FDbFind = false ->
  let email := forgot_email forgotPasswordInput in
  let token := entropy w (drawn w) in
  (find_user (FindBy (HasEmail email)) w = None ->
     exists w',
       forgotPassword forgotPasswordInput w = (Ok true, w')
       /\ redis w' = redis w /\ sent_emails w' = sent_emails w)
  /\ (forall user,
        find_user (FindBy (HasEmail email)) w = Some user ->
        (faults w FRedisSet = false -> faults w FSendEmail = false ->
           exists w',
             forgotPassword forgotPasswordInput w = (Ok true, w')
             /\ fst <$> redis w' !! (FORGET_PASSWORD_PREFIX +:+ token)
                = Some (Number_toString (User.id user))
             /\ sent_emails w'
                = (email, reset_link token (User.id user)) :: sent_emails w)
        /\ (faults w FRedisSet = true ->
              exists error w',
                forgotPassword forgotPasswordInput w = (Throw error, w')
                /\ redis w' = redis w /\ sent_emails w' = sent_emails w)
        /\ (faults w FRedisSet = false -> faults w FSendEmail = true ->
              exists error w',
                forgotPassword forgotPasswordInput w = (Throw error, w'))).
Proof.
  intros Hfind email token. subst email token. unfold find_user.
  split; [ | intros user Huser; repeat split ].
  - intros Hnone. unfold_resolver. unfold find_user. cbn. rewrite Hfind. cbn.
    rewrite Hnone. eauto.
  - intros Hset Hsend. unfold_resolver. unfold find_user. cbn. rewrite Hfind. cbn.
    rewrite Huser. cbn. rewrite Hset. cbn. rewrite Hsend. cbn.
    eexists. split; [ reflexivity | ]. cbn. rewrite lookup_insert_eq. auto.
  - intros Hset. unfold_resolver. unfold find_user. cbn. rewrite Hfind. cbn.
    rewrite Huser. cbn. rewrite Hset. cbn. eauto.
  - intros Hset Hsend. unfold_resolver. unfold find_user. cbn. rewrite Hfind. cbn.
    rewrite Huser. cbn. rewrite Hset. cbn. rewrite Hsend. cbn. eauto.
Qed.

(** *** [register] *)

(** C5: when the input passes validation and some row has its username or
    its email, [register] answers code 400, success false, with one field
    error chosen from the row the lookup returned: username when that row
    has the input's username, email otherwise (then that row has the
    input's email).  No row is inserted and the session is untouched. *)
Theorem register_duplicate registerInput w :
  validateRegisterInput registerInput = None ->
  faults w FDbFind = false ->
  (exists u, In u (users w)
             /\ (User.username u = reg_username registerInput
                 \/ User.email u = reg_email registerInput)) ->
  exists existingUser fieldError w',
    find_user (FindWhere [HasUsername (reg_username registerInput);
                          HasEmail (reg_email registerInput)]) w = Some existingUser
    /\ register registerInput w
       = (Ok {| UserMutationResponse.code := 400;
                UserMutationResponse.success := false;
                UserMutationResponse.message := "Duplicated username or email";
                UserMutationResponse.errors := Some [fieldError];
                UserMutationResponse.user := None |}, w')
    /\ ((User.username existingUser = reg_username registerInput
         /\ fieldError = {| FieldError.field := "username";
                            FieldError.message := "Username already taken" |})
        \/ (User.username existingUser <> reg_username registerInput
            /\ User.email existingUser = reg_email registerInput
            /\ fieldError = {| FieldError.field := "email";
                               FieldError.message := "Email already taken" |}))
    /\ users w' = users w /\ next_id w' = next_id w
    /\ session_userId w' = session_userId w.
Proof using Type.
  intros Hvalid Hfind Hdup.
  destruct (find_where_some _ _ _ Hdup) as (existing & Hfound & _ & Hmatch).
  exists existing.
  unfold register, try_catch, User_findOne, external, emit, modify, gets, bind, ret,
    throw, find_user.
  rewrite Hvalid.
  cbn. rewrite Hfind. cbn. rewrite Hfound. cbn.
  destruct (String.eqb_spec (User.username existing) (reg_username registerInput))
    as [ Heq | Hne ].
  - do 2 eexists. split; [ reflexivity | ]. split; [ reflexivity | ].
    cbn. auto.
  - do 2 eexists. split; [ reflexivity | ]. split; [ reflexivity | ].
    cbn. split; [ right | auto ].
    destruct Hmatch as [ Hun | Hem ]; [ contradiction | auto ].
Qed.

(** *** Reset tokens are used once *)

Lemma perform_entropy a w : entropy (perform a w) = entropy w.
Proof.
  destruct a; cbn; try reflexivity; unfold_resolver; split_cases; reflexivity.
Qed.

Lemma perform_drawn a w : (drawn w <= drawn (perform a w))%nat.
Proof.
  destruct a; cbn; try lia; unfold_resolver; split_cases; cbn; lia.
Qed.

Lemma live_later t t' entry : t <= t' -> live t entry = None -> live t' entry = None.
Proof.
  destruct entry as [ [value expires] | ]; cbn; [ | reflexivity ].
  intros Hle. destruct (Z.ltb_spec t expires); [ discriminate | ].
  intros _. destruct (Z.ltb_spec t' expires); [ lia | reflexivity ].
Qed.

Lemma perform_spent token a w : spent token w -> spent token (perform a w).
Proof.
  intros [Hgone Hnever]. split.
  - unfold token_record in *.
    assert (entropy w (drawn w) <> token) as Hfresh by (apply Hnever; lia).
    assert (FORGET_PASSWORD_PREFIX +:+ entropy w (drawn w)
            <> FORGET_PASSWORD_PREFIX +:+ token) as Hkey
      by (intros Heq; apply Hfresh; exact (String.app_inj _ _ _ Heq)).
    destruct a as [ ? | ? | | ? | ? ? ? | seconds | ? | ? ]; cbn; try exact Hgone.
    1-5: unfold_resolver; split_cases; cbn;
      rewrite ?lookup_insert_ne by exact Hkey;
      try exact Hgone;
      rewrite lookup_delete; (case_decide; [ reflexivity | exact Hgone ]).
    apply (live_later (now w)); [ lia | exact Hgone ].
  - intros n Hn. rewrite perform_entropy. apply Hnever.
    pose proof (perform_drawn a w). lia.
Qed.

Lemma perform_all_spent token log w : spent token w -> spent token (perform_all log w).
Proof.
  revert w. induction log as [ | a log IH ]; intros w Hw; [ exact Hw | ].
  cbn. apply IH, perform_spent, Hw.
Qed.

Lemma changePassword_success_spends token userId changePasswordInput w r w' :
  changePassword token userId changePasswordInput w = (Ok r, w') ->
  UserMutationResponse.success r = true ->
  token_record token w' = None.
Proof.
  intros Hrun Hsuccess. unfold token_record. unfold_resolver. split_cases; try done.
  cbn. rewrite lookup_delete_eq. reflexivity.
Qed.

Lemma changePassword_spent token userId changePasswordInput w :
  spent token w ->
  exists r w',
    changePassword token userId changePasswordInput w = (Ok r, w')
    /\ UserMutationResponse.success r = false
    /\ ((2 < String.length (newPassword changePasswordInput))%nat ->
        faults w FRedisGet = false ->
        r = response_invalid_token).
Proof.
  intros [Hgone _]. unfold token_record in Hgone. unfold_resolver.
  destruct (Nat.leb_spec (String.length (newPassword changePasswordInput)) 2)
    as [ Hshort | Hlong ].
  - do 2 eexists. split; [ reflexivity | ]. split; [ reflexivity | lia ].
  - cbn. destruct (faults w FRedisGet) eqn:Hget; cbn.
    + do 2 eexists. split; [ reflexivity | ]. split; [ reflexivity | ].
      intros _ Hno. discriminate Hno.
    + rewrite Hgone. cbn. do 2 eexists. split; [ reflexivity | ].
      split; reflexivity.
Qed.

(** A token that has expired, or was never issued, stays unusable whatever
    happens next, as long as the random source does not produce it. *)
Lemma dead_token_stays_dead token log w userId changePasswordInput :
  token_record token w = None ->
  never_again token w ->
  exists r w',
    changePassword token userId changePasswordInput (perform_all log w) = (Ok r, w')
    /\ UserMutationResponse.success r = false.
Proof.
  intros Hgone Hnever.
  destruct (changePassword_spent token userId changePasswordInput (perform_all log w))
    as (r & w' & Hrun & Hfail & _); [ apply perform_all_spent; split; assumption | ].
  eauto.
Qed.

(** C4: after a successful [changePassword] with a token, and whatever
    requests, delays and faults follow, as long as the random source does
    not produce that token again, a later [changePassword] with the token
    never succeeds; when its new password is longer than 2 characters and
    the cache read completes, the answer is code 400 with the field error
    Invalid or expired password reset token on token. *)
Theorem reset_token_single_use token userId changePasswordInput w r w1
    log userId2 changePasswordInput2 :
  changePassword token userId changePasswordInput w = (Ok r, w1) ->
  UserMutationResponse.success r = true ->
  never_again token w1 ->
  let w2 := perform_all log w1 in
  exists r2 w3,
    changePassword token userId2 changePasswordInput2 w2 = (Ok r2, w3)
    /\ UserMutationResponse.success r2 = false
    /\ ((2 < String.length (newPassword changePasswordInput2))%nat ->
        faults w2 FRedisGet = false ->
        r2 = response_invalid_token).
Proof.
  intros Hrun Hsuccess Hnever w2. subst w2.
  apply changePassword_spent, perform_all_spent.
  split; [ | exact Hnever ].
  eapply changePassword_success_spends; eassumption.
Qed.

(** *** The store keeps its keys unique *)

Lemma find_where_none un em rows :
  List.find (matches (FindWhere [HasUsername un; HasEmail em])) rows = None ->
  forall u, In u rows -> User.username u <> un /\ User.email u <> em.
Proof.
  intros Hnone u Hin. pose proof (find_none _ _ Hnone u Hin) as Hm. cbn in Hm.
  rewrite orb_false_r in Hm. apply orb_false_iff in Hm as [ H1 H2 ].
  apply String.eqb_neq in H1, H2. split; assumption.
Qed.

Lemma NoDup_snoc_fresh {A} (l : list A) (x : A) :
  NoDup l -> ~ In x l -> NoDup (l ++ [x]).
Proof.
  intros Hl Hx. apply NoDup_app. split; [ exact Hl | ]. split.
  - intros y Hy Hyx. apply list_elem_of_In in Hy.
    apply list_elem_of_In in Hyx. destruct Hyx as [ <- | [] ]. contradiction.
  - apply NoDup_cons. split; [ intros Hin; inversion Hin | constructor ].
Qed.

Lemma store_ok_same w w' :
  users w' = users w -> next_id w' = next_id w -> store_ok w -> store_ok w'.
Proof. unfold store_ok. intros -> ->. auto. Qed.

Lemma store_ok_insert w w' un em pw :
  List.find (matches (FindWhere [HasUsername un; HasEmail em])) (users w) = None ->
  users w' = users w ++ [User.mk (next_id w) un em pw] ->
  next_id w' = next_id w + 1 ->
  store_ok w -> store_ok w'.
Proof.
  intros Hnone Husers Hnext (Hid & Hun & Hem & Hlt). unfold store_ok.
  rewrite Husers, Hnext, !map_app. cbn.
  pose proof (find_where_none _ _ _ Hnone) as Hfresh.
  repeat split.
  - apply NoDup_snoc_fresh; [ exact Hid | ].
    intros Hin. apply in_map_iff in Hin as (u & Hu & Hin).
    rewrite Forall_forall in Hlt. apply list_elem_of_In, Hlt in Hin. lia.
  - apply NoDup_snoc_fresh; [ exact Hun | ].
    intros Hin. apply in_map_iff in Hin as (u & Hu & Hin).
    destruct (Hfresh u Hin). contradiction.
  - apply NoDup_snoc_fresh; [ exact Hem | ].
    intros Hin. apply in_map_iff in Hin as (u & Hu & Hin).
    destruct (Hfresh u Hin). contradiction.
  - apply Forall_app. split.
    + eapply Forall_impl; [ exact Hlt | ]. cbn. intros. lia.
    + repeat constructor. cbn. lia.
Qed.

Lemma identity_after_map (f : User.t -> User.t) rows :
  (forall u, identity (f u) = identity u) ->
  map identity (map f rows) = map identity rows.
Proof. intros Hf. rewrite map_map. apply map_ext. exact Hf. Qed.

Lemma store_ok_identities w w' :
  map identity (users w') = map identity (users w) ->
  next_id w' = next_id w -> store_ok w -> store_ok w'.
Proof.
  intros Hsame Hnext (Hid & Hun & Hem & Hlt). unfold store_ok.
  assert (map User.id (users w') = map User.id (users w)) as ->.
  { change User.id with (fun u => fst (fst (identity u))).
    rewrite <- !(map_map identity (fun t => fst (fst t))), Hsame. reflexivity. }
  assert (map User.username (users w') = map User.username (users w)) as ->.
  { change User.username with (fun u => snd (fst (identity u))).
    rewrite <- !(map_map identity (fun t => snd (fst t))), Hsame. reflexivity. }
  assert (map User.email (users w') = map User.email (users w)) as ->.
  { change User.email with (fun u => snd (identity u)).
    rewrite <- !(map_map identity (fun t => snd t)), Hsame. reflexivity. }
  repeat split; try assumption.
  rewrite Hnext. apply Forall_forall. intros u Hu.
  apply list_elem_of_In, (in_map User.id) in Hu.
  assert (In (User.id u) (map User.id (users w))) as Hin'.
  { change User.id with (fun u => fst (fst (identity u))).
    rewrite <- (map_map identity (fun t => fst (fst t))), <- Hsame, map_map. exact Hu. }
  apply in_map_iff in Hin' as (v & Hv & Hin'). rewrite <- Hv.
  rewrite Forall_forall in Hlt. apply Hlt, list_elem_of_In, Hin'.
Qed.

Lemma perform_store_ok a w : store_ok w -> store_ok (perform a w).
Proof.
  intros Hok.
  destruct a; cbn; try exact Hok;
    unfold_resolver; unfold find_user in *; split_cases; cbn in *;
    first
      [ exact Hok
      | eapply store_ok_same; [ reflexivity | reflexivity | exact Hok ]
      | eapply store_ok_insert; [ eassumption | reflexivity | reflexivity | exact Hok ]
      | eapply store_ok_identities;
        [ cbn; apply identity_after_map; intros u; repeat case_match; reflexivity
        | reflexivity | exact Hok ] ].
Qed.

(** X1: no sequence of requests, delays and faults breaks the store: the
    primary keys, the usernames and the emails stay pairwise different, and
    every key in use stays below the next one to be generated.  In
    particular [register] never inserts a second row with a username or an
    email that is already there. *)
Theorem requests_keep_store_ok log w : store_ok w -> store_ok (perform_all log w).
Proof.
  revert w. induction log as [ | a log IH ]; intros w Hok; [ exact Hok | ].
  change (perform_all (a :: log) w) with (perform_all log (perform a w)).
  apply IH, perform_store_ok, Hok.
Qed.

(** *** Registering, signing in, and the two queries *)

Lemma find_by_id_unique rows u :
  NoDup (map User.id rows) -> In u rows ->
  List.find (matches (FindById (Num (User.id u)))) rows = Some u.
Proof.
  induction rows as [ | v rows IH ]; intros Hnd Hin; [ destruct Hin | ].
  cbn in Hnd. apply NoDup_cons in Hnd as [ Hv Hnd ]. cbn.
  destruct Hin as [ -> | Hin ].
  - rewrite Z.eqb_refl. reflexivity.
  - destruct (Z.eqb_spec (User.id v) (User.id u)) as [ Heq | _ ].
    + exfalso. apply Hv. rewrite Heq. apply list_elem_of_In, in_map, Hin.
    + apply IH; assumption.
Qed.

Lemma find_snoc_fresh o rows x :
  List.find (matches o) rows = None -> matches o x = true ->
  List.find (matches o) (rows ++ [x]) = Some x.
Proof.
  intros Hnone Hx. induction rows as [ | v rows IH ]; cbn in *.
  - rewrite Hx. reflexivity.
  - destruct (matches o v); [ discriminate | auto ].
Qed.

Lemma find_none_weaken_username un em rows :
  List.find (matches (FindWhere [HasUsername un; HasEmail em])) rows = None ->
  List.find (matches (FindBy (HasUsername un))) rows = None.
Proof.
  intros Hnone. destruct (List.find (matches (FindBy (HasUsername un))) rows) eqn:Hf;
    [ | reflexivity ].
  apply find_some in Hf as [ Hin Hm ]. cbn in Hm. apply String.eqb_eq in Hm.
  destruct (find_where_none _ _ _ Hnone _ Hin). contradiction.
Qed.

Lemma find_none_weaken_email un em rows :
  List.find (matches (FindWhere [HasUsername un; HasEmail em])) rows = None ->
  List.find (matches (FindBy (HasEmail em))) rows = None.
Proof.
  intros Hnone. destruct (List.find (matches (FindBy (HasEmail em))) rows) eqn:Hf;
    [ | reflexivity ].
  apply find_some in Hf as [ Hin Hm ]. cbn in Hm. apply String.eqb_eq in Hm.
  destruct (find_where_none _ _ _ Hnone _ Hin). contradiction.
Qed.

Lemma register_run registerInput w :
  validateRegisterInput registerInput = None ->
  find_user (FindWhere [HasUsername (reg_username registerInput);
                        HasEmail (reg_email registerInput)]) w = None ->
  faults w FDbFind = false -> faults w FHash = false -> faults w FDbSave = false ->
  let newUser :=
    User.mk (next_id w) (reg_username registerInput) (reg_email registerInput)
      (argon2_hash (entropy w (drawn w)) (reg_password registerInput)) in
  exists w',
    register registerInput w = (Ok (response_registered newUser), w')
    /\ users w' = users w ++ [newUser]
    /\ next_id w' = next_id w + 1
    /\ session_userId w' = Some (next_id w)
    /\ redis w' = redis w
    /\ faults w' = faults w.
Proof.
  intros Hvalid Hnone Hfind Hhash Hsave newUser. subst newUser.
  unfold find_user in Hnone.
  unfold register, try_catch, User_findOne, User_save, hash, set_session_userId,
    external, emit, draw, modify, gets, bind, ret, throw, find_user.
  rewrite Hvalid. cbn. rewrite Hfind. cbn. rewrite Hnone. cbn. rewrite Hhash. cbn.
  rewrite Hsave. cbn. eexists. split; [ reflexivity | ]. cbn. auto 10.
Qed.

(** X2: a registration that passes validation, meets no row with its
    username or email, and whose lookup, hashing and insert complete, adds
    exactly one row at the end of the table: it carries the next primary
    key, the input's username and email, and the argon2 digest of the
    password under a freshly drawn salt.  The session is signed in as that
    row and the cache is untouched. *)
Theorem register_creates_user registerInput w :
  validateRegisterInput registerInput = None ->
  find_user (FindWhere [HasUsername (reg_username registerInput);
                        HasEmail (reg_email registerInput)]) w = None ->
  faults w FDbFind = false -> faults w FHash = false -> faults w FDbSave = false ->
  let newUser :=
    User.mk (next_id w) (reg_username registerInput) (reg_email registerInput)
      (argon2_hash (entropy w (drawn w)) (reg_password registerInput)) in
  exists w',
    register registerInput w = (Ok (response_registered newUser), w')
    /\ users w' = users w ++ [newUser]
    /\ next_id w' = next_id w + 1
    /\ session_userId w' = Some (next_id w)
    /\ redis w' = redis w
    /\ faults w' = faults w.
Proof. exact (register_run registerInput w). Qed.

(** X3: right after such a registration, when no row already carries the
    next primary key and that key is not 0, the query [me] answers with the
    row just created. *)
Theorem register_then_me registerInput w :
  validateRegisterInput registerInput = None ->
  find_user (FindWhere [HasUsername (reg_username registerInput);
                        HasEmail (reg_email registerInput)]) w = None ->
  faults w FDbFind = false -> faults w FHash = false -> faults w FDbSave = false ->
  Forall (fun u => User.id u < next_id w) (users w) ->
  next_id w <> 0 ->
  fst (me (snd (register registerInput w)))
  = Ok (Some (User.mk (next_id w) (reg_username registerInput) (reg_email registerInput)
                (argon2_hash (entropy w (drawn w)) (reg_password registerInput)))).
Proof.
  intros Hvalid Hnone Hfind Hhash Hsave Hbelow Hnonzero.
  destruct (register_run registerInput w Hvalid Hnone Hfind Hhash Hsave)
    as (w' & Hrun & Husers & _ & Hsession & _ & Hfaults).
  rewrite Hrun. cbn [snd].
  unfold me, User_findOne, external, emit, modify, gets, bind, ret, throw, find_user.
  cbn. rewrite Hsession. cbn.
  destruct (Z.eqb_spec (next_id w) 0) as [ | _ ]; [ contradiction | ].
  cbn. rewrite Hfaults, Hfind. cbn. rewrite Husers.
  rewrite find_snoc_fresh; [ reflexivity | | cbn; apply Z.eqb_refl ].
  destruct (List.find _ (users w)) as [ u | ] eqn:Hf; [ | reflexivity ].
  apply find_some in Hf as [ Hin Hm ]. cbn in Hm. apply Z.eqb_eq in Hm.
  rewrite Forall_forall in Hbelow. apply list_elem_of_In, Hbelow in Hin. lia.
Qed.

(** X4: when the hasher accepts the digest it has just produced, a login with
    the credentials of the registration succeeds as the created row: by
    username when the username has no at sign, by email when the email has
    one. *)
Theorem register_then_login registerInput w :
  validateRegisterInput registerInput = None ->
  find_user (FindWhere [HasUsername (reg_username registerInput);
                        HasEmail (reg_email registerInput)]) w = None ->
  faults w FDbFind = false -> faults w FHash = false -> faults w FDbSave = false ->
  faults w FVerify = false ->
  argon2_verify (argon2_hash (entropy w (drawn w)) (reg_password registerInput))
    (reg_password registerInput) = true ->
  let newUser :=
    User.mk (next_id w) (reg_username registerInput) (reg_email registerInput)
      (argon2_hash (entropy w (drawn w)) (reg_password registerInput)) in
  let w' := snd (register registerInput w) in
  (includes "@"%char (reg_username registerInput) = false ->
     fst (login {| usernameOrEmail := reg_username registerInput;
                   login_password := reg_password registerInput |} w')
     = Ok (response_logged_in newUser))
  /\ (includes "@"%char (reg_email registerInput) = true ->
        fst (login {| usernameOrEmail := reg_email registerInput;
                      login_password := reg_password registerInput |} w')
        = Ok (response_logged_in newUser)).
Proof.
  intros Hvalid Hnone Hfind Hhash Hsave Hverify Hlaw newUser w'. subst newUser w'.
  destruct (register_run registerInput w Hvalid Hnone Hfind Hhash Hsave)
    as (w' & Hrun & Husers & _ & _ & _ & Hfaults).
  rewrite Hrun. cbn [snd]. unfold find_user in Hnone.
  split; intros Hat;
    unfold login, try_catch, User_findOne, verify, set_session_userId,
      external, emit, modify, gets, bind, ret, throw, find_user;
    cbn; rewrite Hat, Hfaults, Hfind; cbn; rewrite Husers.
  - rewrite find_snoc_fresh;
      [ | eapply find_none_weaken_username; exact Hnone | cbn; apply String.eqb_refl ].
    cbn. rewrite Hfaults, Hverify. cbn. rewrite Hlaw. reflexivity.
  - rewrite find_snoc_fresh;
      [ | eapply find_none_weaken_email; exact Hnone | cbn; apply String.eqb_refl ].
    cbn. rewrite Hfaults, Hverify. cbn. rewrite Hlaw. reflexivity.
Qed.

(** X5: after a successful login the session belongs to the returned row,
    which is a row of the table, and the field resolver [email] gives out a
    row's email exactly when the row has the id of the session; for every
    other row it answers with the empty string. *)
Theorem login_then_email loginInput w r w' :
  login loginInput w = (Ok r, w') ->
  UserMutationResponse.success r = true ->
  exists u,
    UserMutationResponse.user r = Some u
    /\ In u (users w')
    /\ session_userId w' = Some (User.id u)
    /\ forall v,
         email v w'
         = (Ok (if User.id u =? User.id v then User.email v else ""), w').
Proof.
  intros Hrun Hsuccess.
  unfold login, try_catch, internal_server_error, User_findOne, verify,
    set_session_userId, external, console_log, emit, modify, gets, bind, ret,
    throw, find_user in Hrun.
  split_cases; try discriminate.
  all: match goal with H : List.find _ _ = Some ?u |- _ =>
    exists u; apply find_some in H as [ Hin _ ] end.
  all: cbn in *; repeat split; assumption.
Qed.

(** X6: after a successful login as a row with a non-zero id, in a table
    whose primary keys are pairwise different, the query [me] answers with
    that row. *)
Theorem login_then_me loginInput w r w' u :
  login loginInput w = (Ok r, w') ->
  UserMutationResponse.user r = Some u ->
  NoDup (map User.id (users w)) ->
  User.id u <> 0 ->
  fst (me w') = Ok (Some u).
Proof.
  intros Hrun Huser Hnodup Hnonzero.
  unfold login, try_catch, internal_server_error, User_findOne, verify,
    set_session_userId, external, console_log, emit, modify, gets, bind, ret,
    throw, find_user in Hrun.
  split_cases; try discriminate.
  all: match goal with H : List.find _ _ = Some ?u |- _ =>
    apply find_some in H as [ Hin _ ] end.
  all: cbn in Hin.
  all: unfold me, User_findOne, external, emit, modify, gets, bind, ret, throw,
    find_user.
  all: cbn; destruct (Z.eqb_spec (User.id u) 0) as [ | _ ]; [ contradiction | ].
  all: cbn; match goal with H : faults _ FDbFind = false |- _ => rewrite H end.
  all: cbn; rewrite find_by_id_unique; [ reflexivity | assumption | assumption ].
Qed.

(** X7: after a logout whose session destroy succeeds, [me] answers null
    without querying the store, and [email] answers the empty string for
    every row. *)
Theorem logout_then_anonymous w :
  faults w FSessionDestroy = false ->
  let w' := snd (logout w) in
  me w' = (Ok None, w')
  /\ forall v, email v w' = (Ok "", w').
Proof.
  intros Hdestroy w'. subst w'.
  unfold logout, clearCookie, session_destroy, await_promise, console_log, emit,
    modify, gets, bind, ret, throw.
  cbn. rewrite Hdestroy. cbn. split; reflexivity.
Qed.

(** X8: [register], [login] and [changePassword] never throw, whatever fails
    underneath, and their response has one of three shapes: code 200 with
    success and a user and no errors, code 400 without success, with errors
    and no user, or code 500 without success, errors or user. *)
Theorem mutations_answer_uniformly w :
  (forall registerInput,
     exists r w', register registerInput w = (Ok r, w') /\ uniform r)
  /\ (forall loginInput,
        exists r w', login loginInput w = (Ok r, w') /\ uniform r)
  /\ (forall token userId changePasswordInput,
        exists r w',
          changePassword token userId changePasswordInput w = (Ok r, w')
          /\ uniform r).
Proof.
  unfold uniform. repeat split; intros; unfold_resolver; split_cases;
    do 2 eexists; (split; [ reflexivity | ]); cbn;
    first [ left; repeat split; discriminate
          | right; left; repeat split; discriminate
          | right; right; repeat split ].
Qed.

(** *** Reading back a printed number *)

Lemma pretty_N_char_value x :
  (x < 10)%N -> digit_value 10 (pretty_N_char x) = Some (Z.of_N x).
Proof.
  intros Hx.
  assert (x = 0 \/ x = 1 \/ x = 2 \/ x = 3 \/ x = 4 \/ x = 5 \/ x = 6 \/ x = 7
          \/ x = 8 \/ x = 9)%N as Hcases by lia.
  repeat (destruct Hcases as [ -> | Hcases ]; [ reflexivity | ]).
  subst x. reflexivity.
Qed.

Lemma pretty_N_go_digits x s :
  all_digits s = true -> all_digits (pretty_N_go x s) = true.
Proof.
  revert s. induction (N.lt_wf_0 x) as [x _ IH]. intros s Hs.
  destruct (decide (x = 0)%N) as [ -> | Hpos ].
  - rewrite pretty_N_go_0. exact Hs.
  - rewrite pretty_N_go_step by lia. apply IH; [ apply N.div_lt; lia | ].
    cbn. unfold is_digit. rewrite pretty_N_char_value by (apply N.mod_lt; lia).
    exact Hs.
Qed.

Lemma parse_digits_pretty x s :
  parse_digits 10 (pretty_N_go x s) None
  = parse_digits 10 s (if decide (x = 0)%N then None else Some (Z.of_N x)).
Proof.
  revert s. induction (N.lt_wf_0 x) as [x _ IH]. intros s.
  destruct (decide (x = 0)%N) as [ -> | Hpos ].
  - rewrite pretty_N_go_0. reflexivity.
  - rewrite pretty_N_go_step by lia. rewrite IH by (apply N.div_lt; lia).
    cbn [parse_digits]. rewrite pretty_N_char_value by (apply N.mod_lt; lia).
    f_equal. f_equal.
    pose proof (N.div_mod x 10 ltac:(lia)) as Hdm.
    destruct (decide (x `div` 10 = 0)%N) as [ Hzero | _ ]; cbn; lia.
Qed.

Lemma parseInt_digits c t :
  all_digits (String c t) = true ->
  parseInt (String c t)
  = match parse_digits 10 (String c t) None with
    | Some n => Num n
    | None => NaN
    end.
Proof.
  intros Hall. cbn in Hall. apply andb_true_iff in Hall as [ Hc Ht ].
  destruct c as [ [] [] [] [] [] [] [] [] ]; try discriminate Hc;
    try (lazy -[parse_digits Z.mul Z.opp];
         destruct (parse_digits _ _ _); [ f_equal; lia | reflexivity ]).
  destruct t as [ | d t ]; [ reflexivity | ].
  cbn in Ht. apply andb_true_iff in Ht as [ Hd _ ].
  destruct d as [ [] [] [] [] [] [] [] [] ]; try discriminate Hd;
    lazy -[parse_digits Z.mul Z.opp];
    destruct (parse_digits _ _ _); first [ f_equal; lia | reflexivity ].
Qed.

Lemma parseInt_minus_digits c t :
  all_digits (String c t) = true ->
  parseInt (String "-"%char (String c t))
  = match parse_digits 10 (String c t) None with
    | Some n => Num (- n)
    | None => NaN
    end.
Proof.
  intros Hall. cbn in Hall. apply andb_true_iff in Hall as [ Hc Ht ].
  destruct c as [ [] [] [] [] [] [] [] [] ]; try discriminate Hc;
    try (lazy -[parse_digits Z.mul Z.opp];
         destruct (parse_digits _ _ _); [ f_equal; lia | reflexivity ]).
  destruct t as [ | d t ]; [ reflexivity | ].
  cbn in Ht. apply andb_true_iff in Ht as [ Hd _ ].
  destruct d as [ [] [] [] [] [] [] [] [] ]; try discriminate Hd;
    lazy -[parse_digits Z.mul Z.opp];
    destruct (parse_digits _ _ _); first [ f_equal; lia | reflexivity ].
Qed.

Lemma parseInt_printed n : parseInt (Number_toString n) = Num n.
Proof.
  assert (forall p, exists c t,
            pretty_N_go (N.pos p) "" = String c t
            /\ all_digits (String c t) = true
            /\ parse_digits 10 (String c t) None = Some (Z.pos p)) as Hshape.
  { intros p.
    pose proof (pretty_N_go_digits (N.pos p) "" eq_refl) as Hall.
    pose proof (parse_digits_pretty (N.pos p) "") as Hval.
    case_decide; [ lia | ].
    change (parse_digits 10 "" (Some (Z.of_N (N.pos p)))) with (Some (Z.pos p)) in Hval.
    revert Hall Hval.
    destruct (pretty_N_go (N.pos p) "") as [ | c t ]; intros Hall Hval;
      [ cbn in Hval; discriminate Hval | ].
    exists c, t. auto. }
  destruct n as [ | p | p ]; [ reflexivity | | ].
  - destruct (Hshape p) as (c & t & Heq & Hall & Hval).
    unfold Number_toString, pretty, pretty_Z, pretty, pretty_positive, pretty,
      pretty_N.
    destruct (decide (N.pos p = 0)%N) as [ | _ ]; [ lia | ].
    rewrite Heq, parseInt_digits, Hval by exact Hall. reflexivity.
  - destruct (Hshape p) as (c & t & Heq & Hall & Hval).
    unfold Number_toString, pretty, pretty_Z, pretty, pretty_positive, pretty,
      pretty_N.
    destruct (decide (N.pos p = 0)%N) as [ | _ ]; [ lia | ].
    rewrite Heq.
    change ("-" +:+ String c t) with (String "-"%char (String c t)).
    rewrite parseInt_minus_digits, Hval by exact Hall. reflexivity.
Qed.


(** *** From the reset link to the new password *)

Lemma live_before t value expires :
  t < expires -> live t (Some (value, expires)) = Some value.
Proof. intros Hlt. cbn. destruct (Z.ltb_spec t expires); [ reflexivity | lia ]. Qed.

Lemma forgotPassword_run forgotPasswordInput w user :
  find_user (FindBy (HasEmail (forgot_email forgotPasswordInput))) w = Some user ->
  faults w FDbFind = false -> faults w FRedisSet = false -> faults w FSendEmail = false ->
  exists w1,
    forgotPassword forgotPasswordInput w = (Ok true, w1)
    /\ users w1 = users w
    /\ redis w1 = <[FORGET_PASSWORD_PREFIX +:+ entropy w (drawn w) :=
                     (Number_toString (User.id user), now w + 1000 * 60 * 60 * 24 * 3)]>
                  (redis w)
    /\ now w1 = now w /\ faults w1 = faults w
    /\ entropy w1 = entropy w /\ drawn w1 = S (drawn w)
    /\ session_userId w1 = session_userId w
    /\ sent_emails w1
       = (forgot_email forgotPasswordInput,
          reset_link (entropy w (drawn w)) (User.id user)) :: sent_emails w.
Proof.
  intros Huser Hfind Hset Hsend. unfold find_user in Huser.
  unfold forgotPassword, User_findOne, v4, redis_set, sendEmail, external, emit, draw,
    modify, gets, bind, ret, throw, find_user.
  cbn. rewrite Hfind. cbn. rewrite Huser. cbn. rewrite Hset. cbn. rewrite Hsend. cbn.
  eexists. split; [ reflexivity | ]. cbn. auto 10.
Qed.

Lemma changePassword_run token userId changePasswordInput w record B :
  (2 < String.length (newPassword changePasswordInput))%nat ->
  token_record token w = Some record ->
  falsy (Some record) = false ->
  find_user (FindById (parseInt userId)) w = Some B ->
  faults w FRedisGet = false -> faults w FDbFind = false -> faults w FHash = false ->
  faults w FDbUpdate = false -> faults w FRedisDel = false ->
  exists w',
    changePassword token userId changePasswordInput w
    = (Ok (response_password_reset B), w')
    /\ find_user (FindById (parseInt userId)) w'
       = Some (User.with_password
                 (argon2_hash (entropy w (drawn w)) (newPassword changePasswordInput)) B)
    /\ redis w' = delete (FORGET_PASSWORD_PREFIX +:+ token) (redis w)
    /\ now w' = now w
    /\ session_userId w' = Some (User.id B).
Proof.
  intros Hlen Htoken Htruthy Huser Hget Hfind Hhash Hupdate Hdel.
  unfold token_record, find_user in *.
  unfold changePassword, try_catch, redis_get, User_findOne, hash, User_update,
    redis_del, set_session_userId, external, emit, draw, modify, gets, bind, ret,
    throw, find_user.
  destruct (Nat.leb_spec (String.length (newPassword changePasswordInput)) 2);
    [ lia | ].
  cbn. rewrite Hget. cbn. rewrite Htoken, Htruthy.
  cbn. rewrite Hfind. cbn. rewrite Huser. cbn. rewrite Hhash. cbn.
  rewrite Hupdate. cbn. rewrite Hdel. cbn.
  eexists. split; [ reflexivity | ]. cbn.
  rewrite find_after_update, Huser. auto.
Qed.

(** X10: the link mailed by [forgotPassword] carries the drawn token and the
    printed id of the user found by email.  Used with those two values
    before the cache entry expires, in a table whose primary keys are
    pairwise different and with every external call completing,
    [changePassword] succeeds as that very user, stores the digest of the new
    password in the user's row, and leaves the token unusable. *)
Theorem reset_link_round_trip forgotPasswordInput changePasswordInput w user
    expires elapsed :
  NoDup (map User.id (users w)) ->
  find_user (FindBy (HasEmail (forgot_email forgotPasswordInput))) w = Some user ->
  (forall f, faults w f = false) ->
  (2 < String.length (newPassword changePasswordInput))%nat ->
  let token := entropy w (drawn w) in
  let w1 := snd (forgotPassword forgotPasswordInput w) in
  snd <$> redis w1 !! (FORGET_PASSWORD_PREFIX +:+ token) = Some expires ->
  now w + elapsed < expires ->
  sent_emails w1
  = (forgot_email forgotPasswordInput, reset_link token (User.id user)) :: sent_emails w
  /\ exists w3,
       changePassword token (Number_toString (User.id user)) changePasswordInput
         (with_now (now w + elapsed) w1)
       = (Ok (response_password_reset user), w3)
       /\ find_user (FindById (Num (User.id user))) w3
          = Some (User.with_password
                    (argon2_hash (entropy w (S (drawn w)))
                       (newPassword changePasswordInput)) user)
       /\ token_record token w3 = None
       /\ session_userId w3 = Some (User.id user).
Proof.
  intros Hnodup Huser Hno Hlen token w1 Hexpires Hbefore. subst token w1.
  destruct (forgotPassword_run forgotPasswordInput w user Huser (Hno _) (Hno _) (Hno _))
    as (w1 & Hrun & Husers & Hredis & Hnow & Hf1 & Hentropy & Hdrawn & _ & Hsent).
  rewrite Hrun in *. cbn [snd] in *. split; [ exact Hsent | ].
  rewrite Hredis, lookup_insert_eq in Hexpires. cbn in Hexpires.
  assert (In user (users w)) as Hin
    by (unfold find_user in Huser; apply find_some in Huser as [ Hin _ ]; exact Hin).
  destruct (changePassword_run (entropy w (drawn w)) (Number_toString (User.id user))
              changePasswordInput (with_now (now w + elapsed) w1)
              (Number_toString (User.id user)) user) as (w3 & Hchange & Hrow & Hcache & _ & Hsession).
  - exact Hlen.
  - unfold token_record.
    change (redis (with_now (now w + elapsed) w1)) with (redis w1).
    change (now (with_now (now w + elapsed) w1)) with (now w + elapsed).
    rewrite Hredis, lookup_insert_eq. apply live_before.
    injection Hexpires as <-. exact Hbefore.
  - apply Number_toString_truthy.
  - unfold find_user. cbn. rewrite Husers, parseInt_printed.
    apply find_by_id_unique; assumption.
  - cbn. rewrite Hf1. apply Hno.
  - cbn. rewrite Hf1. apply Hno.
  - cbn. rewrite Hf1. apply Hno.
  - cbn. rewrite Hf1. apply Hno.
  - cbn. rewrite Hf1. apply Hno.
  - exists w3. rewrite parseInt_printed in Hrow.
    cbn in Hrow. rewrite Hentropy, Hdrawn in Hrow.
    split; [ exact Hchange | ]. split; [ exact Hrow | ].
    split; [ | exact Hsession ].
    unfold token_record. rewrite Hcache, lookup_delete_eq. reflexivity.
Qed.

(** X11: [changePassword] does not undo what it has done when a later step
    fails.  When the cache delete fails after the update went through, the
    answer is code 500 without success, yet the row already carries the new
    digest, the token is still in the cache and usable, and the session is
    not signed in. *)
Theorem changePassword_delete_failure token userId changePasswordInput w record B :
  (2 < String.length (newPassword changePasswordInput))%nat ->
  token_record token w = Some record ->
  falsy (Some record) = false ->
  find_user (FindById (parseInt userId)) w = Some B ->
  faults w FRedisGet = false -> faults w FDbFind = false -> faults w FHash = false ->
  faults w FDbUpdate = false -> faults w FRedisDel = true ->
  exists r w',
    changePassword token userId changePasswordInput w = (Ok r, w')
    /\ UserMutationResponse.code r = 500
    /\ UserMutationResponse.success r = false
    /\ find_user (FindById (parseInt userId)) w'
       = Some (User.with_password
                 (argon2_hash (entropy w (drawn w)) (newPassword changePasswordInput)) B)
    /\ token_record token w' = Some record
    /\ session_userId w' = session_userId w.
Proof.
  intros Hlen Htoken Htruthy Huser Hget Hfind Hhash Hupdate Hdel.
  unfold token_record, find_user in *.
  unfold changePassword, try_catch, internal_server_error, redis_get, User_findOne,
    hash, User_update, redis_del, set_session_userId, external, console_log, emit,
    draw, modify, gets, bind, ret, throw, find_user.
  destruct (Nat.leb_spec (String.length (newPassword changePasswordInput)) 2);
    [ lia | ].
  cbn. rewrite Hget. cbn. rewrite Htoken, Htruthy.
  cbn. rewrite Hfind. cbn. rewrite Huser. cbn. rewrite Hhash. cbn.
  rewrite Hupdate. cbn. rewrite Hdel. cbn.
  do 2 eexists. split; [ reflexivity | ]. cbn.
  rewrite find_after_update, Huser. auto 10.
Qed.

(** X12: a registration that does not succeed, for whatever reason, leaves the
    user table, the key generator, the session and the cache as they were. *)
Theorem register_failure_changes_nothing registerInput w r w' :
  register registerInput w = (Ok r, w') ->
  UserMutationResponse.success r = false ->
  users w' = users w /\ next_id w' = next_id w
  /\ session_userId w' = session_userId w /\ redis w' = redis w.
Proof.
  intros Hrun Hfail.
  unfold register, try_catch, internal_server_error, User_findOne, User_save, hash,
    set_session_userId, external, console_log, emit, draw, modify, gets, bind, ret,
    throw in Hrun.
  split_cases; try discriminate; auto.
Qed.

(** X13: [login] never writes to the user table or to the cache, whatever its
    outcome, and it leaves the session alone unless it succeeds. *)
Theorem login_never_writes loginInput w :
  let w' := snd (login loginInput w) in
  users w' = users w /\ next_id w' = next_id w /\ redis w' = redis w
  /\ (session_userId w' = session_userId w
      \/ exists r, fst (login loginInput w) = Ok r
                   /\ UserMutationResponse.success r = true).
Proof.
  unfold login, try_catch, internal_server_error, User_findOne, verify,
    set_session_userId, external, console_log, emit, modify, gets, bind, ret,
    throw.
  split_cases; cbn; repeat split; eauto.
Qed.

(** X14: [forgotPassword] never touches the user table or the session, and
    the only cache key it can write is the prefix followed by the token it
    draws: every other key keeps its entry, whatever the outcome. *)
Theorem forgotPassword_only_writes_its_key forgotPasswordInput w key :
  let w' := snd (forgotPassword forgotPasswordInput w) in
  users w' = users w /\ next_id w' = next_id w
  /\ session_userId w' = session_userId w
  /\ (key = FORGET_PASSWORD_PREFIX +:+ entropy w (drawn w)
      \/ redis w' !! key = redis w !! key).
Proof.
  unfold forgotPassword, User_findOne, v4, redis_set, sendEmail, external, emit, draw,
    modify, gets, bind, ret, throw.
  split_cases; cbn; repeat split; auto;
    destruct (decide (FORGET_PASSWORD_PREFIX +:+ entropy w (drawn w) = key))
      as [ <- | Hne ]; [ left; reflexivity | right; apply lookup_insert_ne, Hne
                       | left; reflexivity | right; apply lookup_insert_ne, Hne ].
Qed.

(** *** What the requests never do *)

(** X15: the cache entry of a reset token is removed only by a
    [changePassword] that presents that token.  Any other request, delay or
    fault that does not draw the same token again leaves the entry as it is,
    value and expiry instant included: tokens are neither revoked by later
    requests nor extended. *)
Theorem token_entry_untouched token a w :
  (forall userId changePasswordInput,
     a <> DoChangePassword token userId changePasswordInput) ->
  entropy w (drawn w) <> token ->
  redis (perform a w) !! (FORGET_PASSWORD_PREFIX +:+ token)
  = redis w !! (FORGET_PASSWORD_PREFIX +:+ token).
Proof.
  intros Hother Hfresh.
  assert (FORGET_PASSWORD_PREFIX +:+ entropy w (drawn w)
          <> FORGET_PASSWORD_PREFIX +:+ token) as Hkey
    by (intros Heq; apply Hfresh; exact (String.app_inj _ _ _ Heq)).
  destruct a as [ ? | ? | | ? | token' userId' input' | ? | ? | ? ]; cbn;
    try reflexivity.
  1-4: unfold_resolver; split_cases; cbn;
    rewrite ?lookup_insert_ne by exact Hkey; reflexivity.
  assert (FORGET_PASSWORD_PREFIX +:+ token' <> FORGET_PASSWORD_PREFIX +:+ token) as Hkey'.
  { intros Heq. apply (Hother userId' input'). f_equal.
    exact (String.app_inj _ _ _ Heq). }
  unfold_resolver; split_cases; cbn;
    rewrite ?lookup_delete_ne by exact Hkey'; reflexivity.
Qed.

(** X16: a token whose cache entry has reached its expiry instant is answered
    by [changePassword] exactly as if the entry were not there at all, and
    never with success. *)
Theorem expired_token_like_absent token userId changePasswordInput w value expires :
  redis w !! (FORGET_PASSWORD_PREFIX +:+ token) = Some (value, expires) ->
  expires <= now w ->
  exists r,
    fst (changePassword token userId changePasswordInput w) = Ok r
    /\ fst (changePassword token userId changePasswordInput
              (with_redis (delete (FORGET_PASSWORD_PREFIX +:+ token)) w)) = Ok r
    /\ UserMutationResponse.success r = false.
Proof.
  intros Hentry Hexpired.
  unfold changePassword, try_catch, internal_server_error, redis_get, User_findOne,
    hash, User_update, redis_del, set_session_userId, external, console_log, emit,
    draw, modify, gets, bind, ret, throw, live.
  destruct (String.length (newPassword changePasswordInput) <=? 2)%nat;
    [ eexists; repeat split | ].
  cbn. destruct (faults w FRedisGet); cbn; [ eexists; repeat split | ].
  rewrite Hentry, lookup_delete_eq.
  destruct (Z.ltb_spec (now w) expires); [ lia | ]. cbn. eexists. repeat split.
Qed.

Lemma perform_identities a w :
  exists extra,
    map identity (users (perform a w)) = map identity (users w) ++ extra.
Proof.
  destruct a; cbn; try (exists []; rewrite app_nil_r; reflexivity);
    unfold_resolver; split_cases; cbn;
    first
      [ exists []; rewrite app_nil_r; reflexivity
      | eexists; rewrite map_app; reflexivity
      | exists []; rewrite app_nil_r; apply identity_after_map;
        intros u; repeat case_match; reflexivity ].
Qed.

(** X17: no sequence of requests, delays and faults removes a user or changes
    a user's id, username or email: the identities in the table after the
    sequence are those before it, in the same order, followed by those of
    the users registered meanwhile. *)
Theorem users_never_removed log w :
  exists extra,
    map identity (users (perform_all log w)) = map identity (users w) ++ extra.
Proof.
  revert w. induction log as [ | a log IH ]; intros w.
  - exists []. rewrite app_nil_r. reflexivity.
  - change (perform_all (a :: log) w) with (perform_all log (perform a w)).
    destruct (IH (perform a w)) as (later & Hlater).
    destruct (perform_identities a w) as (first & Hfirst).
    exists (first ++ later). rewrite Hlater, Hfirst, app_assoc. reflexivity.
Qed.

(** X18: when [register] or [changePassword] succeeds, the session is signed
    in as the user returned in the response, and the table holds a row with
    that user's id, username and email. *)
Theorem success_signs_in w :
  (forall registerInput r w',
     register registerInput w = (Ok r, w') ->
     UserMutationResponse.success r = true ->
     exists u,
       UserMutationResponse.user r = Some u
       /\ session_userId w' = Some (User.id u)
       /\ In (identity u) (map identity (users w')))
  /\ (forall token userId changePasswordInput r w',
        changePassword token userId changePasswordInput w = (Ok r, w') ->
        UserMutationResponse.success r = true ->
        exists u,
          UserMutationResponse.user r = Some u
          /\ session_userId w' = Some (User.id u)
          /\ In (identity u) (map identity (users w'))).
Proof.
  split.
  - intros registerInput r w' Hrun Hsuccess.
    unfold register, try_catch, internal_server_error, User_findOne, User_save, hash,
      set_session_userId, external, console_log, emit, draw, modify, gets, bind, ret,
      throw in Hrun.
    split_cases; try discriminate.
    eexists. split; [ reflexivity | ]. split; [ reflexivity | ].
    cbn. rewrite map_app. apply in_or_app. right. left. reflexivity.
  - intros token userId changePasswordInput r w' Hrun Hsuccess.
    unfold changePassword, try_catch, internal_server_error, redis_get, User_findOne,
      hash, User_update, redis_del, set_session_userId, external, console_log, emit,
      draw, modify, gets, bind, ret, throw, find_user in Hrun.
    split_cases; try discriminate.
    all: match goal with H : List.find _ _ = Some ?u |- _ =>
           exists u; apply find_some in H as [ Hin _ ] end.
    all: split; [ reflexivity | ]; split; [ reflexivity | ].
    all: cbn in *; rewrite identity_after_map
           by (intros v; repeat case_match; reflexivity).
    all: apply in_map; exact Hin.
Qed.

End UserResolver.

(** ** The resolvers at the sample data *)

Lemma sample_uuid_fresh n : (1 <= n)%nat -> sample_uuid n <> "uuid-0".
Proof.
  intros Hn Heq. unfold sample_uuid in Heq.
  change "uuid-0" with ("uuid-" +:+ pretty 0%nat) in Heq.
  apply String.app_inj in Heq. apply pretty_nat_inj in Heq. lia.
Qed.

(** *** C1 *)

(** C1: the entry [forgotPassword] writes for bob at instant 0 expires at
    instant 259200000, one thousand times the 259200 seconds of three days,
    because the millisecond count 1000 * 60 * 60 * 24 * 3 is passed in the
    seconds mode of the cache; three days and one second later the token is
    still in the cache and [changePassword] accepts it. *)
Theorem forgotPassword_token_outlives_three_days :
  let issued :=
    forgotPassword sample_prefix {| forgot_email := "a@x.com" |} sample_world in
  let later := with_now (60 * 60 * 24 * 3 + 1) (snd issued) in
  fst issued = Ok true
  /\ redis (snd issued) !! "forgot-password:uuid-0" = Some ("1"%string, 259200000)
  /\ 259200000 = 1000 * 259200
  /\ token_record sample_prefix "uuid-0" later = Some "1"%string
  /\ fst (changePassword sample_prefix sample_hash "uuid-0" "1"
            {| newPassword := "hunter2" |} later)
     = Ok (response_password_reset bob).
Proof. vm_compute. repeat split. Qed.

(** *** C2 *)

Lemma changePassword_ignores_token_owner_witness :
  exists w',
    changePassword sample_prefix sample_hash "uuid-0" "2"
      {| newPassword := "secret" |} world_with_token
    = (Ok (response_password_reset alice), w')
    /\ find_user (FindById (parseInt "2")) w'
       = Some (User.with_password (sample_hash "uuid-1" "secret") alice)
    /\ redis w' = delete ("forgot-password:" +:+ "uuid-0") (redis world_with_token)
    /\ session_userId w' = Some 2.
Proof.
  apply (changePassword_ignores_token_owner sample_prefix sample_hash
           "uuid-0" "2" {| newPassword := "secret" |} world_with_token 1 alice);
    solve [ reflexivity | cbn; lia ].
Defined.

Lemma changePassword_valid_token_short_password :
  token_record sample_prefix "uuid-0" world_with_token = Some (Number_toString 1)
  /\ find_user (FindById (parseInt "2")) world_with_token = Some alice
  /\ changePassword sample_prefix sample_hash "uuid-0" "2"
       {| newPassword := "ab" |} world_with_token
     = (Ok response_invalid_password, world_with_token)
  /\ UserMutationResponse.success response_invalid_password = false.
Proof. repeat split. Qed.

(** *** C3 *)

Lemma forgotPassword_outcomes_witness :
  exists error w',
    forgotPassword sample_prefix {| forgot_email := "a@x.com" |}
      (with_faults (only FSendEmail) sample_world)
    = (Throw error, w').
Proof.
  destruct (forgotPassword_outcomes sample_prefix {| forgot_email := "a@x.com" |}
              (with_faults (only FSendEmail) sample_world) eq_refl)
    as [ _ Hfound ].
  destruct (Hfound bob eq_refl) as (_ & _ & Hmail).
  apply Hmail; reflexivity.
Defined.

Lemma forgotPassword_cache_write_failure_surfaces :
  find_user (FindBy (HasEmail "a@x.com")) (with_faults (only FRedisSet) sample_world)
  = Some bob
  /\ (exists error,
        fst (forgotPassword sample_prefix {| forgot_email := "a@x.com" |}
               (with_faults (only FRedisSet) sample_world))
        = Throw error)
  /\ fst (forgotPassword sample_prefix {| forgot_email := "a@x.com" |}
            (with_faults (only FRedisSet) sample_world))
     <> Ok true.
Proof. repeat split; [ eexists; reflexivity | discriminate ]. Qed.

(** *** C4 *)

Lemma reset_token_single_use_witness :
  let w1 := snd (changePassword sample_prefix sample_hash "uuid-0" "1"
                   {| newPassword := "secret" |} world_with_token) in
  let w2 := perform_all sample_cookie sample_prefix sample_validate sample_hash
              sample_verify sample_log w1 in
  exists r2 w3,
    changePassword sample_prefix sample_hash "uuid-0" "1"
      {| newPassword := "another" |} w2 = (Ok r2, w3)
    /\ UserMutationResponse.success r2 = false
    /\ ((2 < String.length "another")%nat ->
        faults w2 FRedisGet = false ->
        r2 = response_invalid_token).
Proof.
  intros w1 w2.
  refine (reset_token_single_use sample_cookie sample_prefix sample_validate sample_hash
            sample_verify "uuid-0" "1" {| newPassword := "secret" |} world_with_token
            (response_password_reset bob) w1 sample_log "1" {| newPassword := "another" |}
            _ _ _).
  - vm_compute; reflexivity.
  - reflexivity.
  - intros n Hn. apply sample_uuid_fresh. vm_compute in Hn. lia.
Defined.

Lemma second_attempt_with_short_password :
  let first := changePassword sample_prefix sample_hash "uuid-0" "1"
                 {| newPassword := "secret" |} world_with_token in
  fst first = Ok (response_password_reset bob)
  /\ fst (changePassword sample_prefix sample_hash "uuid-0" "1"
            {| newPassword := "ab" |} (snd first))
     = Ok response_invalid_password
  /\ UserMutationResponse.errors response_invalid_password
     <> UserMutationResponse.errors response_invalid_token.
Proof. repeat split. discriminate. Qed.

(** *** C5 *)

Lemma register_duplicate_witness :
  exists existingUser fieldError w',
    find_user (FindWhere [HasUsername "bob"; HasEmail "new@x.com"]) sample_world
    = Some existingUser
    /\ register sample_validate sample_hash
         {| reg_username := "bob"; reg_email := "new@x.com"; reg_password := "secret" |}
         sample_world
       = (Ok {| UserMutationResponse.code := 400;
                UserMutationResponse.success := false;
                UserMutationResponse.message := "Duplicated username or email";
                UserMutationResponse.errors := Some [fieldError];
                UserMutationResponse.user := None |}, w')
    /\ ((User.username existingUser = "bob"
         /\ fieldError = {| FieldError.field := "username";
                            FieldError.message := "Username already taken" |})
        \/ (User.username existingUser <> "bob"
            /\ User.email existingUser = "new@x.com"
            /\ fieldError = {| FieldError.field := "email";
                               FieldError.message := "Email already taken" |}))
    /\ users w' = users sample_world /\ next_id w' = next_id sample_world
    /\ session_userId w' = session_userId sample_world.
Proof.
  apply (register_duplicate sample_validate sample_hash
           {| reg_username := "bob"; reg_email := "new@x.com"; reg_password := "secret" |}
           sample_world).
  - reflexivity.
  - reflexivity.
  - exists bob. split; [ left; reflexivity | left; reflexivity ].
Defined.

(** alice's username is taken (by the second row) and so is the email (by
    the first row); the lookup answers with the first row and the error
    names the email. *)
Lemma register_reports_email_when_both_collide :
  In alice (users sample_world)
  /\ User.username alice = "alice"
  /\ In bob (users sample_world)
  /\ User.email bob = "a@x.com"
  /\ fst (register sample_validate sample_hash
            {| reg_username := "alice"; reg_email := "a@x.com"; reg_password := "secret" |}
            sample_world)
     = Ok {| UserMutationResponse.code := 400;
             UserMutationResponse.success := false;
             UserMutationResponse.message := "Duplicated username or email";
             UserMutationResponse.errors :=
               Some [ {| FieldError.field := "email";
                         FieldError.message := "Email already taken" |} ];
             UserMutationResponse.user := None |}.
Proof. repeat split; cbn; auto. Qed.

(** *** C6 *)

Lemma login_cases_witness :
  exists w',
    login sample_verify {| usernameOrEmail := "a@x.com"; login_password := "builder" |}
      sample_world
    = (Ok (response_logged_in bob), w')
    /\ session_userId w' = Some 1.
Proof.
  destruct (login_cases sample_verify
              {| usernameOrEmail := "a@x.com"; login_password := "builder" |}
              sample_world eq_refl) as (_ & _ & Hgood & _).
  apply (Hgood bob); reflexivity.
Defined.

(** *** C7 *)

Lemma changePassword_short_password_witness :
  changePassword sample_prefix sample_hash "uuid-0" "1" {| newPassword := "ab" |}
    world_with_token
  = (Ok response_invalid_password, world_with_token).
Proof.
  apply (changePassword_short_password sample_prefix sample_hash "uuid-0" "1"
           {| newPassword := "ab" |} world_with_token).
  cbn. lia.
Defined.

(** *** C9 *)

Lemma changePassword_user_gone_witness :
  exists w',
    changePassword sample_prefix sample_hash "uuid-0" "99"
      {| newPassword := "secret" |} world_with_token
    = (Ok response_user_gone, w')
    /\ users w' = users world_with_token /\ redis w' = redis world_with_token.
Proof.
  apply (changePassword_user_gone sample_prefix sample_hash "uuid-0" "99"
           {| newPassword := "secret" |} world_with_token 1);
    solve [ reflexivity | cbn; lia ].
Defined.

Lemma changePassword_user_gone_short_password :
  token_record sample_prefix "uuid-0" world_with_token = Some (Number_toString 1)
  /\ find_user (FindById (parseInt "99")) world_with_token = None
  /\ changePassword sample_prefix sample_hash "uuid-0" "99"
       {| newPassword := "ab" |} world_with_token
     = (Ok response_invalid_password, world_with_token)
  /\ UserMutationResponse.errors response_invalid_password
     = Some [ {| FieldError.field := "newPassword";
                 FieldError.message := "Length must be greater than 2" |} ].
Proof. repeat split. Qed.

(** *** C10 *)

Lemma changePassword_400_changes_nothing_witness :
  let w' := snd (changePassword sample_prefix sample_hash "uuid-7" "1"
                   {| newPassword := "secret" |} world_with_token) in
  users w' = users world_with_token
  /\ redis w' = redis world_with_token
  /\ session_userId w' = session_userId world_with_token.
Proof.
  apply (changePassword_400_changes_nothing sample_prefix sample_hash "uuid-7" "1"
           {| newPassword := "secret" |} world_with_token response_invalid_token);
    reflexivity.
Defined.

(** ** The added properties at the sample data *)

Lemma sample_world_ok : store_ok sample_world.
Proof.
  unfold store_ok. cbn.
  repeat split;
    try (apply NoDup_cons; split;
         [ intros Hin; apply list_elem_of_In in Hin; cbn in Hin;
           destruct Hin as [ Heq | [] ]; discriminate Heq
         | apply NoDup_cons; split; [ intros Hin; inversion Hin | constructor ] ]).
  repeat constructor.
Qed.

Lemma requests_keep_store_ok_witness :
  store_ok (perform_all sample_cookie sample_prefix sample_validate sample_hash
              sample_verify busy_log sample_world).
Proof.
  apply (requests_keep_store_ok sample_cookie sample_prefix sample_validate sample_hash
           sample_verify busy_log sample_world).
  exact sample_world_ok.
Defined.

Lemma register_creates_user_witness :
  exists w',
    register sample_validate sample_hash carol_input sample_world
    = (Ok (response_registered (User.mk 3 "carol" "carol@x.com" "uuid-0$secret")), w')
    /\ users w' = [bob; alice; User.mk 3 "carol" "carol@x.com" "uuid-0$secret"]
    /\ next_id w' = 4
    /\ session_userId w' = Some 3
    /\ redis w' = redis sample_world
    /\ faults w' = faults sample_world.
Proof.
  apply (register_creates_user sample_validate sample_hash carol_input sample_world);
    reflexivity.
Defined.

Lemma register_then_me_witness :
  fst (me (snd (register sample_validate sample_hash carol_input sample_world)))
  = Ok (Some (User.mk 3 "carol" "carol@x.com" "uuid-0$secret")).
Proof.
  apply (register_then_me sample_validate sample_hash carol_input sample_world);
    try reflexivity.
  - repeat constructor.
  - discriminate.
Defined.

Lemma register_then_login_witness :
  fst (login sample_verify
         {| usernameOrEmail := "carol"; login_password := "secret" |}
         (snd (register sample_validate sample_hash carol_input salted_world)))
  = Ok (response_logged_in (User.mk 3 "carol" "carol@x.com" "salt$secret")).
Proof.
  pose proof (proj1 (register_then_login sample_validate sample_hash sample_verify
                       carol_input salted_world eq_refl eq_refl eq_refl eq_refl eq_refl
                       eq_refl eq_refl) eq_refl) as Hlogin.
  vm_compute in Hlogin |- *. exact Hlogin.
Defined.

Lemma login_then_email_witness :
  exists u,
    UserMutationResponse.user (response_logged_in bob) = Some u
    /\ In u (users (snd (login sample_verify
                           {| usernameOrEmail := "a@x.com"; login_password := "builder" |}
                           sample_world)))
    /\ session_userId
         (snd (login sample_verify
                 {| usernameOrEmail := "a@x.com"; login_password := "builder" |}
                 sample_world))
       = Some (User.id u)
    /\ forall v,
         email v (snd (login sample_verify
                         {| usernameOrEmail := "a@x.com"; login_password := "builder" |}
                         sample_world))
         = (Ok (if User.id u =? User.id v then User.email v else ""),
            snd (login sample_verify
                   {| usernameOrEmail := "a@x.com"; login_password := "builder" |}
                   sample_world)).
Proof.
  apply (login_then_email sample_verify
           {| usernameOrEmail := "a@x.com"; login_password := "builder" |}
           sample_world (response_logged_in bob)); reflexivity.
Defined.

Lemma login_then_me_witness :
  fst (me (snd (login sample_verify
                  {| usernameOrEmail := "alice"; login_password := "wonderland" |}
                  sample_world)))
  = Ok (Some alice).
Proof.
  apply (login_then_me sample_verify
           {| usernameOrEmail := "alice"; login_password := "wonderland" |}
           sample_world (response_logged_in alice)).
  - reflexivity.
  - reflexivity.
  - apply sample_world_ok.
  - discriminate.
Defined.

Lemma logout_then_anonymous_witness :
  let w' := snd (logout sample_cookie (with_session_userId (Some 1) sample_world)) in
  me w' = (Ok None, w') /\ forall v, email v w' = (Ok "", w').
Proof.
  apply (logout_then_anonymous sample_cookie (with_session_userId (Some 1) sample_world)).
  reflexivity.
Defined.

Lemma reset_link_round_trip_witness :
  let w1 := snd (forgotPassword sample_prefix {| forgot_email := "a@x.com" |}
                   sample_world) in
  sent_emails w1
  = [("a@x.com", reset_link "uuid-0" 1)]
  /\ exists w3,
       changePassword sample_prefix sample_hash "uuid-0" (Number_toString 1)
         {| newPassword := "rebuilt" |} (with_now (0 + 100) w1)
       = (Ok (response_password_reset bob), w3)
       /\ find_user (FindById (Num 1)) w3
          = Some (User.with_password (sample_hash "uuid-1" "rebuilt") bob)
       /\ token_record sample_prefix "uuid-0" w3 = None
       /\ session_userId w3 = Some 1.
Proof.
  apply (reset_link_round_trip sample_prefix sample_hash {| forgot_email := "a@x.com" |}
           {| newPassword := "rebuilt" |} sample_world bob 259200000 100).
  - apply sample_world_ok.
  - reflexivity.
  - reflexivity.
  - cbn. lia.
  - reflexivity.
  - reflexivity.
Defined.

Lemma changePassword_delete_failure_witness :
  exists r w',
    changePassword sample_prefix sample_hash "uuid-0" "1" {| newPassword := "rebuilt" |}
      (with_faults (only FRedisDel) world_with_token)
    = (Ok r, w')
    /\ UserMutationResponse.code r = 500
    /\ UserMutationResponse.success r = false
    /\ find_user (FindById (parseInt "1")) w'
       = Some (User.with_password (sample_hash "uuid-1" "rebuilt") bob)
    /\ token_record sample_prefix "uuid-0" w' = Some "1"%string
    /\ session_userId w' = None.
Proof.
  apply (changePassword_delete_failure sample_prefix sample_hash "uuid-0" "1"
           {| newPassword := "rebuilt" |} (with_faults (only FRedisDel) world_with_token)
           "1" bob);
    solve [ reflexivity | cbn; lia ].
Defined.

Lemma register_failure_changes_nothing_witness :
  let w' := snd (register sample_validate sample_hash
                   {| reg_username := "bob"; reg_email := "new@x.com";
                      reg_password := "secret" |} sample_world) in
  users w' = users sample_world /\ next_id w' = next_id sample_world
  /\ session_userId w' = session_userId sample_world
  /\ redis w' = redis sample_world.
Proof.
  intros w'.
  refine (register_failure_changes_nothing sample_validate sample_hash
            {| reg_username := "bob"; reg_email := "new@x.com"; reg_password := "secret" |}
            sample_world
            {| UserMutationResponse.code := 400;
               UserMutationResponse.success := false;
               UserMutationResponse.message := "Duplicated username or email";
               UserMutationResponse.errors :=
                 Some [ {| FieldError.field := "username";
                           FieldError.message := "Username already taken" |} ];
               UserMutationResponse.user := None |} w' _ _);
    reflexivity.
Defined.

Lemma token_entry_untouched_witness :
  redis (perform sample_cookie sample_prefix sample_validate sample_hash sample_verify
           (DoForgotPassword {| forgot_email := "c@x.com" |}) world_with_token)
  !! (sample_prefix +:+ "uuid-0")
  = redis world_with_token !! (sample_prefix +:+ "uuid-0").
Proof.
  apply (token_entry_untouched sample_cookie sample_prefix sample_validate sample_hash
           sample_verify "uuid-0" (DoForgotPassword {| forgot_email := "c@x.com" |})
           world_with_token).
  - intros userId changePasswordInput. discriminate.
  - apply sample_uuid_fresh. cbn. lia.
Defined.

Lemma expired_token_like_absent_witness :
  exists r,
    fst (changePassword sample_prefix sample_hash "uuid-0" "1"
           {| newPassword := "rebuilt" |} (with_now 259200000 world_with_token))
    = Ok r
    /\ fst (changePassword sample_prefix sample_hash "uuid-0" "1"
              {| newPassword := "rebuilt" |}
              (with_redis (delete (sample_prefix +:+ "uuid-0"))
                 (with_now 259200000 world_with_token)))
       = Ok r
    /\ UserMutationResponse.success r = false.
Proof.
  apply (expired_token_like_absent sample_prefix sample_hash "uuid-0" "1"
           {| newPassword := "rebuilt" |} (with_now 259200000 world_with_token)
           "1" 259200000).
  - reflexivity.
  - cbn. lia.
Defined.

Lemma success_signs_in_witness :
  exists u,
    UserMutationResponse.user
      (response_registered (User.mk 3 "carol" "carol@x.com" "uuid-0$secret")) = Some u
    /\ session_userId (snd (register sample_validate sample_hash carol_input sample_world))
       = Some (User.id u)
    /\ In (identity u)
         (map identity
            (users (snd (register sample_validate sample_hash carol_input sample_world)))).
Proof.
  apply (proj1 (success_signs_in sample_prefix sample_validate sample_hash sample_world)
           carol_input
           (response_registered (User.mk 3 "carol" "carol@x.com" "uuid-0$secret")));
    reflexivity.
Defined.
